(** * HilfeX local print agent: the Android print agent (agent script)

  A shallow embedding of the three algorithmic pieces of the agent:
  the ESC/POS encoder [convertToESCPOS], the printer discovery
  ([discoverPrinters] and its three strategies) and the protocol
  dispatch ([printWithProtocol] and its transport clients).

  JavaScript strings are sequences of UTF-16 code units; they are
  modelled as lists of code units ([N]).  Everything the agent reads
  from the outside world (sockets, datagrams, the JSON parser of the
  runtime, the Unicode case tables) is an explicit argument. *)

From Stdlib Require Import List NArith ZArith Bool Lia String Ascii.
From Stdlib Require Import Numbers.DecimalString.
Import ListNotations.

Set Implicit Arguments.
Set Warnings "-register-all,-abstract-large-number,-notation-for-abbreviation".

(* ================================================================= *)
(** ** JavaScript strings *)

Module JsString.

Local Open Scope N_scope.

(** A string value: its UTF-16 code units, in order. *)
Definition jsstring : Type := list N.

(** The code units of an ASCII literal of the source. *)
Definition lit (s : string) : jsstring :=
  map N_of_ascii (list_ascii_of_string s).

Fixpoint str_eqb (a b : jsstring) : bool :=
  match a, b with
  | [], [] => true
  | x :: a', y :: b' => N.eqb x y && str_eqb a' b'
  | _, _ => false
  end.

(** [prefixb p s]: [s] begins with the code units of [p]. *)
Fixpoint prefixb (p s : jsstring) : bool :=
  match p, s with
  | [], _ => true
  | x :: p', y :: s' => N.eqb x y && prefixb p' s'
  | _ :: _, [] => false
  end.

(** [String.prototype.includes]: [pat] occurs in [s] as a contiguous
    run of code units. *)
Fixpoint includes (s pat : jsstring) : bool :=
  prefixb pat s ||
  match s with
  | [] => false
  | _ :: s' => includes s' pat
  end.

(** [String.prototype.split] with a separator of one code unit.  The
    empty string splits into one empty piece. *)
Fixpoint split (sep : N) (s : jsstring) : list jsstring :=
  match s with
  | [] => [[]]
  | c :: s' =>
      if N.eqb c sep then [] :: split sep s'
      else match split sep s' with
           | piece :: pieces => (c :: piece) :: pieces
           | [] => [[c]]
           end
  end.

(** [Array.prototype.join]. *)
Fixpoint join (sep : jsstring) (pieces : list jsstring) : jsstring :=
  match pieces with
  | [] => []
  | [p] => p
  | p :: rest => p ++ sep ++ join sep rest
  end.

(** [s.replace(new RegExp(c, 'g'), r)] for a pattern [c] that is one
    ordinary character and a replacement [r] of one character. *)
Definition replaceAll (c r : N) (s : jsstring) : jsstring :=
  map (fun u => if N.eqb u c then r else u) s.

(** Node's ['binary'] (latin1) encoding of a string written to a
    socket: the low byte of every code unit. *)
Definition latin1 (s : jsstring) : list N :=
  map (fun u => N.modulo u 256) s.

(** Decimal rendering of an integer, as in a template literal (the
    runtime switches to exponent notation from 10^21 on). *)
Definition decimal (z : Z) : jsstring :=
  lit (NilZero.string_of_int (Z.to_int z)).

(** *** [String.prototype.toLowerCase]

    On a string of ASCII characters the result is the string with
    [A]..[Z] replaced by [a]..[z].  For any other string the result
    comes from the Unicode case tables of the runtime, which are not
    part of the repository: [unicodeLower] stands for them. *)
Definition isAscii (u : N) : bool := N.ltb u 128.

Definition lowerAscii (u : N) : N :=
  if N.leb 65 u && N.leb u 90 then N.add u 32 else u.

Section CaseMapping.

Variable unicodeLower : jsstring -> jsstring.

Definition toLowerCase (s : jsstring) : jsstring :=
  if forallb isAscii s then map lowerAscii s else unicodeLower s.

End CaseMapping.

(** *** The global [parseInt] with no radix argument

    [None] is [NaN]; [Some z] is the integer the digits denote (the
    runtime rounds it to the nearest double beyond 2^53). *)
Definition isWhiteSpace (u : N) : bool :=
  existsb (N.eqb u)
    [9; 10; 11; 12; 13; 32; 160; 5760; 8232; 8233; 8239; 8287; 12288; 65279]
  || (N.leb 8192 u && N.leb u 8202).

Fixpoint trimStart (s : jsstring) : jsstring :=
  match s with
  | c :: s' => if isWhiteSpace c then trimStart s' else s
  | [] => []
  end.

(** [String.prototype.trim]: white space and line terminators are
    removed at both ends. *)
Definition trim (s : jsstring) : jsstring :=
  rev (trimStart (rev (trimStart s))).

Definition digitValue (u : N) : option Z :=
  if N.leb 48 u && N.leb u 57 then Some (Z.of_N u - 48)%Z
  else if N.leb 97 u && N.leb u 122 then Some (Z.of_N u - 87)%Z
  else if N.leb 65 u && N.leb u 90 then Some (Z.of_N u - 55)%Z
  else None.

(** The digits of radix [R] at the front of [s], most significant
    first. *)
Fixpoint leadingDigits (R : Z) (s : jsstring) : list Z :=
  match s with
  | c :: s' =>
      match digitValue c with
      | Some d => if Z.ltb d R then d :: leadingDigits R s' else []
      | None => []
      end
  | [] => []
  end.

Definition digitsValue (R : Z) (ds : list Z) : Z :=
  fold_left (fun acc d => acc * R + d)%Z ds 0%Z.

Definition undefinedText : jsstring := Eval cbv in lit "undefined".

(** The sign in front of the digits, and the rest. *)
Definition stripSign (s : jsstring) : Z * jsstring :=
  match s with
  | c :: rest =>
      if N.eqb c 45 then ((-1)%Z, rest)
      else if N.eqb c 43 then (1%Z, rest)
      else (1%Z, s)
  | [] => (1%Z, [])
  end.

(** The radix, 16 after [0x] or [0X] and 10 otherwise, and the rest. *)
Definition stripPrefix (s : jsstring) : Z * jsstring :=
  match s with
  | c :: d :: rest =>
      if N.eqb c 48 && (N.eqb d 120 || N.eqb d 88) then (16%Z, rest)
      else (10%Z, s)
  | _ => (10%Z, s)
  end.

Definition parseInt (string : option jsstring) : option Z :=
  let inputString :=
    match string with Some s => s | None => undefinedText end in
  let '(sign, unsigned) := stripSign (trimStart inputString) in
  let '(R, body) := stripPrefix unsigned in
  match leadingDigits R body with
  | [] => None
  | ds => Some (sign * digitsValue R ds)%Z
  end.

(** The text before the first [sep], and the text after it when
    there is one. *)
Fixpoint beforeFirst (sep : N) (s : jsstring) : jsstring :=
  match s with
  | [] => []
  | c :: s' => if N.eqb c sep then [] else c :: beforeFirst sep s'
  end.


Definition startsWith (s p : jsstring) : Prop := exists rest, s = p ++ rest.
Definition endsWith (s p : jsstring) : Prop := exists front, s = front ++ p.

End JsString.

Import JsString.

(* ================================================================= *)
(** ** JSON values

  The values that [JSON.parse] returns and that request bodies
  carry.  Numbers are integers here (ports are); an object is the
  list of its own properties in property order, keys distinct. *)

Module JsValue.

Inductive Json : Type :=
| JNull
| JBool (b : bool)
| JNum (z : Z)
| JStr (s : jsstring)
| JArr (items : list Json)
| JObj (fields : list (jsstring * Json)).

(** Own property of an object. *)
Fixpoint lookup (key : jsstring) (fields : list (jsstring * Json))
  : option Json :=
  match fields with
  | [] => None
  | (k, v) :: rest => if str_eqb k key then Some v else lookup key rest
  end.

(** A property read [v.key], for the keys the agent reads ([type],
    [port], [name], [host], [wsPort], [httpPort], [success],
    [error]), none of which a built-in prototype defines.  Reading a
    property of [null] throws a [TypeError]; [Value None] is
    [undefined]. *)
Inductive Access : Type :=
| Throws
| Value (v : option Json).

Definition getProp (v : Json) (key : jsstring) : Access :=
  match v with
  | JNull => Throws
  | JObj fields => Value (lookup key fields)
  | _ => Value None
  end.

(** [ToBoolean]; [None] is [undefined]. *)
Definition truthy (v : option Json) : bool :=
  match v with
  | None => false
  | Some JNull => false
  | Some (JBool b) => b
  | Some (JNum z) => negb (Z.eqb z 0)
  | Some (JStr s) => match s with [] => false | _ => true end
  | Some (JArr _) => true
  | Some (JObj _) => true
  end.

(** [v || d]. *)
Definition orElse (v : option Json) (d : Json) : Json :=
  match v with
  | Some x => if truthy v then x else d
  | None => d
  end.

(** [ToString] of a JSON value, as a template literal applies it. *)
Fixpoint toStr (v : Json) : jsstring :=
  match v with
  | JNull => lit "null"
  | JBool true => lit "true"
  | JBool false => lit "false"
  | JNum z => decimal z
  | JStr s => s
  | JArr items =>
      (fix go (l : list Json) : jsstring :=
         match l with
         | [] => []
         | x :: r =>
             (match x with JNull => [] | _ => toStr x end)
             ++ match r with [] => [] | _ => 44%N :: go r end
         end) items
  | JObj _ => lit "[object Object]"
  end.

Definition template (v : option Json) : jsstring :=
  match v with
  | Some x => toStr x
  | None => undefinedText
  end.

(** Structural equality. *)
Fixpoint Json_eqb (a b : Json) : bool :=
  match a, b with
  | JNull, JNull => true
  | JBool x, JBool y => Bool.eqb x y
  | JNum x, JNum y => Z.eqb x y
  | JStr x, JStr y => str_eqb x y
  | JArr xs, JArr ys =>
      (fix go (l m : list Json) : bool :=
         match l, m with
         | [], [] => true
         | x :: l', y :: m' => Json_eqb x y && go l' m'
         | _, _ => false
         end) xs ys
  | JObj xs, JObj ys =>
      (fix go (l m : list (jsstring * Json)) : bool :=
         match l, m with
         | [], [] => true
         | (k, x) :: l', (k', y) :: m' =>
             str_eqb k k' && Json_eqb x y && go l' m'
         | _, _ => false
         end) xs ys
  | _, _ => false
  end.

(** The property names the agent reads and writes. *)
Definition hostKey : jsstring := Eval cbv in lit "host".
Definition portKey : jsstring := Eval cbv in lit "port".
Definition nameKey : jsstring := Eval cbv in lit "name".
Definition typeKey : jsstring := Eval cbv in lit "type".
Definition wsPortKey : jsstring := Eval cbv in lit "wsPort".
Definition httpPortKey : jsstring := Eval cbv in lit "httpPort".
Definition successKey : jsstring := Eval cbv in lit "success".
Definition errorKey : jsstring := Eval cbv in lit "error".
Definition dataKey : jsstring := Eval cbv in lit "data".
Definition formatKey : jsstring := Eval cbv in lit "format".

End JsValue.

Import JsValue.

(* ================================================================= *)
(** ** The ESC/POS encoder: [convertToESCPOS] *)

Module Escpos.

Local Open Scope N_scope.

Definition ESC : jsstring := [27].
Definition GS : jsstring := [29].
Definition LF : jsstring := [10].

(** [turkishMap], in the order [Object.entries] lists it: the code
    unit of each Turkish letter and the code page byte it becomes. *)
Definition turkishMap : list (N * N) :=
  [ (231, 135); (199, 128);     (* c-cedilla *)
    (287, 131); (286, 166);     (* g-breve *)
    (305, 141); (304, 152);     (* dotless i, dotted I *)
    (246, 148); (214, 153);     (* o-diaeresis *)
    (351, 159); (350, 158);     (* s-cedilla *)
    (252, 129); (220, 154) ].   (* u-diaeresis *)

(** The loop over [turkishMap]: one global replace per entry. *)
Definition substitute (text : jsstring) : jsstring :=
  fold_left (fun processedText entry =>
               replaceAll (fst entry) (snd entry) processedText)
            turkishMap text.

(** One code unit looked up in [turkishMap]. *)
Definition encodeUnit (u : N) : N :=
  match find (fun entry => N.eqb u (fst entry)) turkishMap with
  | Some entry => snd entry
  | None => u
  end.

Definition TITLE : jsstring := Eval cbv in lit "ISTANBUL RESTAURANT".
Definition TOTAL : jsstring := Eval cbv in lit "TOPLAM:".
Definition RULE : jsstring := Eval cbv in lit "===".

(** What one iteration of the line loop appends to [commands]. *)
Definition emitLine (line : jsstring) : jsstring :=
  if includes line TITLE then
    (ESC ++ [97; 1]) ++ (ESC ++ [69; 1]) ++ (GS ++ [33; 17])
    ++ (line ++ LF)
    ++ (ESC ++ [69; 0]) ++ (GS ++ [33; 0])
  else if includes line TOTAL then
    (ESC ++ [69; 1]) ++ (GS ++ [33; 16])
    ++ (line ++ LF)
    ++ (ESC ++ [69; 0]) ++ (GS ++ [33; 0])
  else if includes line RULE then
    (ESC ++ [97; 1])
    ++ (line ++ LF)
    ++ (ESC ++ [97; 0])
  else
    line ++ LF.

Definition convertToESCPOS (text : jsstring) : jsstring :=
  let commands := [] in
  let commands := commands ++ (ESC ++ [64]) in
  let commands := commands ++ (ESC ++ [116; 18]) in
  let commands := commands ++ (ESC ++ [82; 18]) in
  let processedText := substitute text in
  let lines := split 10 processedText in
  let commands :=
    fold_left (fun commands line => commands ++ emitLine line)
              lines commands in
  let commands := commands ++ (GS ++ [86; 0]) in
  commands.

(** The structural control codes, as bytes on the wire. *)
Definition initialize : list N := [27; 64].          (* ESC @ *)
Definition selectCodepage : list N := [27; 116; 18]. (* ESC t 0x12 *)
Definition selectCharset : list N := [27; 82; 18].   (* ESC R 0x12 *)
Definition paperCut : list N := [29; 86; 0].         (* GS V 0 *)

Definition opening : list N := initialize ++ selectCodepage ++ selectCharset.

(** The classification of a line as the specification words it: an
    ordered list of (pattern, codes before, codes after), of which the
    entry of highest priority among those that match is applied. *)
Record Rule : Type :=
  { pattern : jsstring; before : jsstring; after : jsstring }.

Definition titleRule : Rule :=
  {| pattern := TITLE;
     before := [27; 97; 1; 27; 69; 1; 29; 33; 17];
     after := [27; 69; 0; 29; 33; 0] |}.

Definition totalRule : Rule :=
  {| pattern := TOTAL;
     before := [27; 69; 1; 29; 33; 16];
     after := [27; 69; 0; 29; 33; 0] |}.

Definition separatorRule : Rule :=
  {| pattern := RULE;
     before := [27; 97; 1];
     after := [27; 97; 0] |}.

Definition rules : list Rule := [titleRule; totalRule; separatorRule].

(** Every rule whose pattern occurs in the line, in priority order. *)
Definition matching (line : jsstring) : list Rule :=
  filter (fun r => includes line (pattern r)) rules.

Definition bracket (r : Rule) (line : jsstring) : jsstring :=
  before r ++ line ++ LF ++ after r.

Definition firstMatchWins (line : jsstring) : jsstring :=
  match matching line with
  | r :: _ => bracket r line
  | [] => line ++ LF
  end.

End Escpos.

(* ================================================================= *)
(** ** Printer discovery: [discoverPrinters] and its strategies *)

Module Discovery.

Local Open Scope Z_scope.

(** A discovered printer, [{host, port, name, type}]. *)
Record Printer : Type :=
  { host : jsstring; port : Json; name : Json; type : jsstring }.

(** One entry of the result of [Promise.allSettled]. *)
Inductive Settled (A : Type) : Type :=
| Fulfilled (value : A)
| Rejected.
Arguments Rejected {A}.

(** An address of [os.networkInterfaces()]. *)
Record Iface : Type :=
  { family : jsstring; internal : bool; address : jsstring }.

Definition IPv4 : jsstring := Eval cbv in lit "IPv4".
Definition loopback : jsstring := Eval cbv in lit "127.0.0.1".

(** The first non-internal IPv4 address, interface by interface. *)
Definition getPrimaryIP (interfaces : list (jsstring * list Iface))
  : jsstring :=
  match find (fun iface => str_eqb (family iface) IPv4
                           && negb (internal iface))
             (flat_map snd interfaces) with
  | Some iface => address iface
  | None => loopback
  end.

Definition legalPort (p : Z) : bool := (0 <=? p) && (p <=? 65535).

Definition tcpType : jsstring := Eval cbv in lit "tcp".
Definition discoveredType : jsstring := Eval cbv in lit "discovered".
Definition printerPrefix : jsstring := Eval cbv in lit "Printer-".

Section Strategies.

(** [tcpAccepts host port]: a connect to [host:port] completes within
    the 1000 ms of [testConnection], before any socket error. *)
Variable tcpAccepts : jsstring -> Z -> bool.

(** The JSON parser of the runtime; [None] when it throws. *)
Variable JSON_parse : jsstring -> option Json.

(** [testConnection(host, port)]: the printer record on connect,
    [null] on error or timeout.  [socket.connect] throws inside the
    executor for a port that is [NaN] or outside 0..65535, which
    rejects the promise. *)
Definition testConnection (host : jsstring) (port : option Z)
  : Settled (option Printer) :=
  match port with
  | Some p =>
      if legalPort p then
        Fulfilled
          (if tcpAccepts host p then
             Some {| host := host;
                     port := JNum p;
                     name := JStr (printerPrefix ++ host ++ [58%N]
                                   ++ decimal p);
                     type := tcpType |}
           else None)
      else Rejected
  | None => Rejected
  end.

Definition commonPorts : list Z := [9100; 9101; 9102; 8080; 8008; 631].

(** The loop variable [i] of the scan: 1, ..., 254. *)
Definition hostSuffixes : list Z := map Z.of_nat (seq 1 254).

Definition discoverByPortScan (interfaces : list (jsstring * list Iface))
  : list Printer :=
  let subnet :=
    join [46%N] (firstn 3 (split 46 (getPrimaryIP interfaces))) in
  let scanPromises :=
    flat_map (fun i =>
                let host := subnet ++ [46%N] ++ decimal i in
                map (fun port => testConnection host (Some port))
                    commonPorts)
             hostSuffixes in
  flat_map (fun result =>
              match result with
              | Fulfilled (Some value) => [value]
              | _ => []
              end)
           scanPromises.

(** What the datagram socket delivers before the 2000 ms timer
    fires. *)
Inductive UdpEvent : Type :=
| Message (msg : jsstring) (rinfoAddress : jsstring)
| SocketError.

Definition printerMarker : jsstring := Eval cbv in lit "printer".

(** The ['message'] handler: the array [printers] after the call. *)
Definition onMessage (printers : list Printer)
           (msg rinfoAddress : jsstring) : list Printer :=
  match JSON_parse msg with
  | Some response =>
      match getProp response typeKey with
      | Value (Some (JStr t)) =>
          if str_eqb t printerMarker then
            match getProp response portKey, getProp response nameKey with
            | Value responsePort, Value responseName =>
                printers ++
                [ {| host := rinfoAddress;
                     port := orElse responsePort (JNum 9100);
                     name := orElse responseName
                               (JStr (printerPrefix ++ rinfoAddress));
                     type := discoveredType |} ]
            | _, _ => printers
            end
          else printers
      | Value _ => printers
      | Throws => printers          (* the TypeError is caught *)
      end
  | None => printers                (* Ignore non-JSON responses *)
  end.

(** The promise of [discoverByBroadcast]: the timer resolves it with
    [printers]; a socket error resolves it with a fresh empty array
    first. *)
Fixpoint broadcastLoop (events : list UdpEvent) (printers : list Printer)
  : list Printer :=
  match events with
  | [] => printers
  | Message msg rinfoAddress :: rest =>
      broadcastLoop rest (onMessage printers msg rinfoAddress)
  | SocketError :: _ => []
  end.

Definition discoverByBroadcast (events : list UdpEvent) : list Printer :=
  broadcastLoop events [].

Definition commonAddresses : list jsstring :=
  Eval cbv in
    map lit [ "192.168.1.100:9100"%string; "192.168.1.200:9100"%string;
              "192.168.0.100:9100"%string; "192.168.178.54:9100"%string;
              "10.0.0.100:9100"%string ].

(** The sequential loop of [discoverByCommonAddresses]; a rejected
    [await] rejects the whole strategy. *)
Fixpoint commonLoop (addresses : list jsstring) (printers : list Printer)
  : Settled (list Printer) :=
  match addresses with
  | [] => Fulfilled printers
  | address :: rest =>
      let parts := split 58 address in
      let host := hd [] parts in
      let port := nth_error parts 1 in
      match testConnection host (parseInt port) with
      | Fulfilled (Some result) => commonLoop rest (printers ++ [result])
      | Fulfilled None => commonLoop rest printers
      | Rejected => Rejected
      end
  end.

Definition discoverByCommonAddresses : Settled (list Printer) :=
  commonLoop commonAddresses [].

(** [JSON.stringify(printer)].  A JSON text is kept as the value it
    denotes: [JSON.stringify] writes one text for each value, and two
    texts it writes are the same string exactly when they denote the
    same value. *)
Definition JSON_stringify (printer : Printer) : Json :=
  JObj [ (hostKey, JStr (host printer));
         (portKey, port printer);
         (nameKey, name printer);
         (typeKey, JStr (type printer)) ].

(** [JSON.parse(p)] of such a text: the record again. *)
Definition parsePrinter (text : Json) : Printer :=
  let field key :=
    match getProp text key with
    | Value (Some v) => v
    | _ => JNull
    end in
  let text_of v := match v with JStr s => s | _ => [] end in
  {| host := text_of (field hostKey);
     port := field portKey;
     name := field nameKey;
     type := text_of (field typeKey) |}.

(** [printers.add(text)] on the [Set] of texts, which keeps its
    members in insertion order. *)
Definition Set_add (set : list Json) (text : Json) : list Json :=
  if existsb (Json_eqb text) set then set else set ++ [text].

(** The first loop of [discoverPrinters]: the [Set] after the settled
    strategies have been gone through. *)
Definition mergeDiscoveries (discoveries : list (Settled (list Printer)))
  : list Json :=
  fold_left (fun printers result =>
               match result with
               | Fulfilled value =>
                   fold_left (fun printers printer =>
                                Set_add printers (JSON_stringify printer))
                             value printers
               | Rejected => printers
               end)
            discoveries [].

Definition discoverPrinters (interfaces : list (jsstring * list Iface))
           (events : list UdpEvent) : list Printer :=
  let discoveries :=
    [ Fulfilled (discoverByPortScan interfaces);
      Fulfilled (discoverByBroadcast events);
      discoverByCommonAddresses ] in
  let printers := mergeDiscoveries discoveries in
  let uniquePrinters := map parsePrinter printers in
  uniquePrinters.

End Strategies.


(** No socket error among the events. *)
Definition errorFree (events : list UdpEvent) : bool :=
  forallb (fun e => match e with Message _ _ => true | SocketError => false end)
          events.

(** The plain-text marker test.  The agent has none; this is the test
    of the broadcast handler of the interactive tester
    ([test-printer.js]), [includes('PRINTER') || includes('ESC')], which
    the tester applies to the trimmed text of a reply that is not
    JSON. *)
Definition hasPlainTextMarker (msg : jsstring) : bool :=
  includes msg (lit "PRINTER") || includes msg (lit "ESC").

(** Two printers at the same address. *)
Definition sameAddress (p q : Printer) : Prop :=
  host p = host q /\ port p = port q.

End Discovery.

(* ================================================================= *)
(** ** Protocol dispatch: [printWithProtocol] and the transport clients *)

Module Dispatch.

Import Escpos.
Local Open Scope Z_scope.

(** The fields of [CONFIG] the dispatch reads. *)
Record Config : Type :=
  { defaultPrinterHost : jsstring; printerDiscoveryTimeout : Z }.

Definition builtinPrinterHost : jsstring :=
  Eval cbv in lit "192.168.2.38:9100".

(** [CONFIG] as the script initialises it;
    [process.env.PRINTER_ADDRESS || '192.168.2.38:9100']. *)
Definition CONFIG (PRINTER_ADDRESS : option jsstring) : Config :=
  {| defaultPrinterHost :=
       match PRINTER_ADDRESS with
       | Some (c :: a) => c :: a
       | _ => builtinPrinterHost
       end;
     printerDiscoveryTimeout := 5000 |}.

Definition defaultPrinterHostKey : jsstring :=
  Eval cbv in lit "defaultPrinterHost".
Definition printerDiscoveryTimeoutKey : jsstring :=
  Eval cbv in lit "printerDiscoveryTimeout".

(** [Object.assign(CONFIG, body)], on the two fields the dispatch
    reads.  This is how [CONFIG] is changed: by [loadConfiguration]
    with the object read from [config.json], and by the route
    [POST /api/config] with the body of the request (before the
    configuration is saved, so also when saving fails).  [body] holds
    the properties of the JSON object; a field it does not have keeps
    its value.  [None] stands for a body that gives
    [defaultPrinterHost] a value that is not a string, or
    [printerDiscoveryTimeout] one that is not a number: [Config] does
    not hold such values. *)
Definition assignConfig (body : list (jsstring * Json)) (cfg : Config)
  : option Config :=
  let assignedHost :=
    match lookup defaultPrinterHostKey body with
    | None => Some (defaultPrinterHost cfg)
    | Some (JStr s) => Some s
    | Some _ => None
    end in
  let assignedTimeout :=
    match lookup printerDiscoveryTimeoutKey body with
    | None => Some (printerDiscoveryTimeout cfg)
    | Some (JNum ms) => Some ms
    | Some _ => None
    end in
  match assignedHost, assignedTimeout with
  | Some h, Some ms =>
      Some {| defaultPrinterHost := h; printerDiscoveryTimeout := ms |}
  | _, _ => None
  end.

Definition localhost : jsstring := Eval cbv in lit "localhost".
Definition systemDefault : jsstring := Eval cbv in lit "system-default".
Definition escpos : jsstring := Eval cbv in lit "escpos".

(** [parseInt(port) || 9100]. *)
Definition portOrDefault (port : option jsstring) : Z :=
  match parseInt port with
  | Some z => if z =? 0 then 9100 else z
  | None => 9100
  end.

(** The object built from [CONFIG.defaultPrinterHost]. *)
Definition defaultPrinter (cfg : Config) : list (jsstring * Json) :=
  let parts := split 58 (defaultPrinterHost cfg) in
  let host := hd [] parts in
  let port := nth_error parts 1 in
  [ (hostKey, JStr (match host with [] => localhost | _ => host end));
    (portKey, JNum (portOrDefault port));
    (nameKey, JStr systemDefault) ].

(** The first statement of [printWithProtocol]: the properties of
    [printerConfig].  [printer] is the caller's value ([None] is
    [undefined]); [printer && printer.host] is truthy only for an
    object with a truthy [host]. *)
Definition resolvePrinter (cfg : Config) (printer : option Json)
  : list (jsstring * Json) :=
  match printer with
  | Some (JObj fields) =>
      if truthy (lookup hostKey fields) then fields else defaultPrinter cfg
  | _ => defaultPrinter cfg
  end.

(** *** What a client does on the network, and what the network does *)

Inductive NetOp : Type :=
| TcpConnect (port : Json) (host : option Json)
| TcpWrite (bytes : list N)
| TcpEnd
| TcpDestroy
| WsOpen (url : jsstring)
| WsSend (envelope : Json)
| WsClose
| HttpPost (url : jsstring) (contentLength : Z) (body : jsstring).

Inductive SocketEvent : Type :=
| Connected
| Errored (message : jsstring)
| Closed.

Inductive ChannelEvent : Type :=
| Opened
| Received (message : jsstring)
| ChannelError (message : jsstring).

(** The events a socket or channel emits, with the time in ms since
    the call at which each is delivered; [throws] is the message of an
    exception the constructor or [connect] raises at once. *)
Record Script (Event : Type) : Type :=
  { throws : option jsstring; events : list (Z * Event) }.

(** What the promise of [fetch] comes to: it is fulfilled with a
    response, it is rejected, or it stays pending for ever. *)
Inductive HttpScript : Type :=
| Responds (at_ : Z) (status : Z) (statusText : jsstring)
| FetchFails (at_ : Z) (message : jsstring)
| Silent.

(** The network around the agent: what a socket connected to
    [port, host] and a channel opened on a URL emit, and what
    [fetch(url, {method: 'POST', headers, body, timeout})] of
    node-fetch comes to, given the URL, the body and the [timeout]
    option. *)
Record Network : Type :=
  { tcp : Json -> option Json -> Script SocketEvent;
    ws : jsstring -> Script ChannelEvent;
    http : jsstring -> jsstring -> Z -> HttpScript }.

(** *** Results *)

Record PrintResult : Type :=
  { success : bool; method : jsstring; message : jsstring; timestamp : Z }.

(** The [Error]s of the dispatch, by the message they carry. *)
Inductive PrintError : Type :=
| UnsupportedProtocol (protocol : jsstring)
| PrinterConnectionTimeout
| TcpPrintFailed (message : jsstring)
| WebSocketConnectionTimeout
| WebSocketPrintError (message : jsstring)
| WebSocketPrintFailed (message : jsstring)
| HttpPrintFailed (status : Z) (statusText : jsstring)
| FetchError (message : jsstring)
| ArgumentError (message : jsstring).

Definition errorMessage (e : PrintError) : jsstring :=
  match e with
  | UnsupportedProtocol protocol => lit "Unsupported protocol: " ++ protocol
  | PrinterConnectionTimeout => lit "Printer connection timeout"
  | TcpPrintFailed m => lit "TCP Print failed: " ++ m
  | WebSocketConnectionTimeout => lit "WebSocket printer connection timeout"
  | WebSocketPrintError m => lit "WebSocket print error: " ++ m
  | WebSocketPrintFailed m => m
  | HttpPrintFailed status statusText =>
      lit "HTTP print failed: " ++ decimal status ++ [32%N] ++ statusText
  | FetchError m => m
  | ArgumentError m => m
  end.

(** The failure kinds of the specification.  The agent raises plain
    [Error] objects; a kind is the specification's name for a group of
    them. *)
Inductive FailureKind : Type :=
| ConfigurationFailure
| ConnectionFailure
| ProtocolFailure.

Definition failureKind (e : PrintError) : FailureKind :=
  match e with
  | UnsupportedProtocol _ => ConfigurationFailure
  | ArgumentError _ => ConfigurationFailure
  | PrinterConnectionTimeout => ConnectionFailure
  | TcpPrintFailed _ => ConnectionFailure
  | WebSocketConnectionTimeout => ConnectionFailure
  | WebSocketPrintError _ => ConnectionFailure
  | FetchError _ => ConnectionFailure
  | WebSocketPrintFailed _ => ProtocolFailure
  | HttpPrintFailed _ _ => ProtocolFailure
  end.

Inductive Settlement : Type :=
| Resolved (result : PrintResult)
| Rejected (error : PrintError).

(** The outcome of a call: the network operations it performed and
    the settlement of its promise with the time of it; [None] when
    the promise stays pending for ever. *)
Record Run : Type :=
  { ops : list NetOp; settled : option (Z * Settlement) }.

(** *** A promise with a timer, driven by events *)

Record ClientState : Type :=
  { timerArmed : bool; promise : Run }.

Definition clearTimeout (st : ClientState) : ClientState :=
  {| timerArmed := false; promise := promise st |}.

Definition emit (op : NetOp) (st : ClientState) : ClientState :=
  {| timerArmed := timerArmed st;
     promise := {| ops := ops (promise st) ++ [op];
                   settled := settled (promise st) |} |}.

(** [resolve] and [reject]: the first settlement stands. *)
Definition settle (now : Z) (s : Settlement) (st : ClientState)
  : ClientState :=
  match settled (promise st) with
  | Some _ => st
  | None => {| timerArmed := timerArmed st;
               promise := {| ops := ops (promise st);
                             settled := Some (now, s) |} |}
  end.

(** The event loop of one call.  Events are delivered in order; the
    timer, while armed, fires at [timeout], before any event due at
    that time or later.  Its callback destroys the socket (closes the
    channel), after which nothing more is delivered. *)
Fixpoint drive (Event : Type) (onTimer : ClientState -> ClientState)
         (handle : Z -> Event -> ClientState -> ClientState)
         (timeout : Z) (evs : list (Z * Event)) (st : ClientState)
  : ClientState :=
  match evs with
  | [] => if timerArmed st then onTimer st else st
  | (now, ev) :: rest =>
      if timerArmed st && (timeout <=? now) then onTimer st
      else drive onTimer handle timeout rest (handle now ev st)
  end.

(** [setTimeout] takes a delay below 1 ms or above 2^31-1 ms as
    1 ms. *)
Definition timerDelay (ms : Z) : Z :=
  if (ms <? 1) || (2147483647 <? ms) then 1 else ms.

(** [Buffer.byteLength]: the length of the UTF-8 encoding. *)
Definition isHighSurrogate (u : N) : bool :=
  (N.leb 55296 u && N.leb u 56319)%N.
Definition isLowSurrogate (u : N) : bool :=
  (N.leb 56320 u && N.leb u 57343)%N.

Fixpoint byteLength (s : jsstring) : Z :=
  match s with
  | [] => 0
  | u :: rest =>
      if N.ltb u 128 then 1 + byteLength rest
      else if N.ltb u 2048 then 2 + byteLength rest
      else if isHighSurrogate u then
        match rest with
        | v :: rest' =>
            if isLowSurrogate v then 4 + byteLength rest'
            else 3 + byteLength rest
        | [] => 3
        end
      else 3 + byteLength rest
  end.

Definition websocketName : jsstring := Eval cbv in lit "websocket".
Definition rawName : jsstring := Eval cbv in lit "raw".
Definition tcpName : jsstring := Eval cbv in lit "tcp".
Definition httpName : jsstring := Eval cbv in lit "http".
Definition printName : jsstring := Eval cbv in lit "print".
Definition printPath : jsstring := Eval cbv in lit "/print".

Section Clients.

(** The case tables and the JSON parser of the runtime. *)
Variable unicodeLower : jsstring -> jsstring.
Variable JSON_parse : jsstring -> option Json.

(** The configuration in force and the network around the agent. *)
Variable cfg : Config.
Variable net : Network.

(** [if (format === 'escpos') printData = this.convertToESCPOS(data)]. *)
Definition encode (data format : jsstring) : jsstring :=
  if str_eqb format escpos then convertToESCPOS data else data.

Definition start : ClientState :=
  {| timerArmed := true; promise := {| ops := []; settled := None |} |}.

(** The callbacks of [printViaRawTCP]: the timer, and the
    ['connect'], ['error'] and ['close'] events of the socket. *)
Definition rawTcpTimer (st : ClientState) : ClientState :=
  let st := clearTimeout st in     (* the timer has fired *)
  let st := emit TcpDestroy st in
  settle (timerDelay (printerDiscoveryTimeout cfg))
         (Rejected PrinterConnectionTimeout) st.

Definition rawTcpHandler (printData : jsstring)
           (printer : list (jsstring * Json))
           (now : Z) (ev : SocketEvent) (st : ClientState) : ClientState :=
  match ev with
  | Connected =>
      let st := clearTimeout st in
      let st := emit (TcpWrite (latin1 printData)) st in
      let st := emit TcpEnd st in
      settle now
        (Resolved
           {| success := true;
              method := lit "raw_tcp";
              message := lit "Printed successfully to "
                         ++ template (lookup hostKey printer) ++ [58%N]
                         ++ template (lookup portKey printer);
              timestamp := now |})
        st
  | Errored m =>
      let st := clearTimeout st in
      settle now (Rejected (TcpPrintFailed m)) st
  | Closed => clearTimeout st
  end.

Definition printViaRawTCP (data : jsstring)
           (printer : list (jsstring * Json)) (format : jsstring) : Run :=
  let delay := timerDelay (printerDiscoveryTimeout cfg) in
  let printData := encode data format in
  let port := orElse (lookup portKey printer) (JNum 9100) in
  let host := lookup hostKey printer in
  let script := tcp net port host in
  promise
    match throws script with
    | Some m =>
        (* [connect] throws in the executor: the promise is rejected
           at once, and the timer, still armed, fires later *)
        drive rawTcpTimer (rawTcpHandler printData printer) delay []
              (settle 0 (Rejected (ArgumentError m)) start)
    | None =>
        drive rawTcpTimer (rawTcpHandler printData printer) delay
              (events script) (emit (TcpConnect port host) start)
    end.

(** The callbacks of [printViaWebSocket]: the timer, and the
    ['open'], ['message'] and ['error'] events of the channel. *)
Definition webSocketTimer (st : ClientState) : ClientState :=
  let st := clearTimeout st in     (* the timer has fired *)
  let st := emit WsClose st in
  settle (timerDelay (printerDiscoveryTimeout cfg))
         (Rejected WebSocketConnectionTimeout) st.

Definition webSocketHandler (data : jsstring)
           (printer : list (jsstring * Json)) (format : jsstring)
           (now : Z) (ev : ChannelEvent) (st : ClientState) : ClientState :=
  match ev with
  | Opened =>
      let st := clearTimeout st in
      let printData := encode data format in
      emit (WsSend (JObj [ (typeKey, JStr printName);
                           (dataKey, JStr printData);
                           (formatKey, JStr format) ])) st
  | Received m =>
      match JSON_parse m with
      | Some response =>
          match getProp response successKey, getProp response errorKey with
          | Value ok, Value err =>
              let st :=
                if truthy ok then
                  settle now
                    (Resolved
                       {| success := true;
                          method := websocketName;
                          message := lit "WebSocket print successful to "
                                     ++ template (lookup hostKey printer);
                          timestamp := now |})
                    st
                else
                  settle now
                    (Rejected
                       (WebSocketPrintFailed
                          (toStr (orElse err
                                    (JStr (lit "WebSocket print failed"))))))
                    st in
              emit WsClose st
          | _, _ => st             (* the handler throws *)
          end
      | None => st                 (* the handler throws *)
      end
  | ChannelError m =>
      let st := clearTimeout st in
      settle now (Rejected (WebSocketPrintError m)) st
  end.

Definition printViaWebSocket (data : jsstring)
           (printer : list (jsstring * Json)) (format : jsstring) : Run :=
  let wsUrl :=
    lit "ws://" ++ template (lookup hostKey printer) ++ [58%N]
    ++ toStr (orElse (lookup wsPortKey printer) (JNum 8080)) ++ printPath in
  let delay := timerDelay (printerDiscoveryTimeout cfg) in
  let script := ws net wsUrl in
  match throws script with
  | Some m =>
      (* the constructor throws before the timer is set *)
      {| ops := []; settled := Some (0, Rejected (ArgumentError m)) |}
  | None =>
      promise (drive webSocketTimer (webSocketHandler data printer format)
                     delay (events script) (emit (WsOpen wsUrl) start))
  end.

(** [printViaHTTP] awaits [fetch], to which it hands
    [CONFIG.printerDiscoveryTimeout] as the [timeout] option; it sets
    no timer of its own.  An unsuccessful status is thrown as an
    error; a rejection of [fetch] passes through. *)
Definition printViaHTTP (data : jsstring)
           (printer : list (jsstring * Json)) (format : jsstring) : Run :=
  let host := lookup hostKey printer in
  let url :=
    lit "http://" ++ template host ++ [58%N]
    ++ toStr (orElse (lookup httpPortKey printer) (JNum 8008))
    ++ printPath in
  let printData := encode data format in
  let request := HttpPost url (byteLength printData) printData in
  match http net url printData (printerDiscoveryTimeout cfg) with
  | Responds now status statusText =>
      {| ops := [request];
         settled :=
           Some (now,
                 if (200 <=? status) && (status <=? 299) then
                   Resolved {| success := true;
                               method := httpName;
                               message := lit "HTTP print successful to "
                                          ++ template host;
                               timestamp := now |}
                 else Rejected (HttpPrintFailed status statusText)) |}
  | FetchFails now m =>
      {| ops := [request]; settled := Some (now, Rejected (FetchError m)) |}
  | Silent => {| ops := [request]; settled := None |}
  end.

(** The [switch] on [protocol.toLowerCase()]. *)
Definition printWithProtocol (data : jsstring) (printer : option Json)
           (protocol format : jsstring) : Run :=
  let printerConfig := resolvePrinter cfg printer in
  let selector := toLowerCase unicodeLower protocol in
  if str_eqb selector websocketName then
    printViaWebSocket data printerConfig format
  else if str_eqb selector rawName || str_eqb selector tcpName then
    printViaRawTCP data printerConfig format
  else if str_eqb selector httpName then
    printViaHTTP data printerConfig format
  else
    {| ops := [];
       settled := Some (0, Rejected (UnsupportedProtocol protocol)) |}.

End Clients.

(** The connect phase of a stream dispatch, read off the events of
    the socket: it fails when the first event is an error before the
    timer is due, and it does not complete in time when no event
    comes before the timer is due. *)
Definition connectFails (delay : Z) (evs : list (Z * SocketEvent)) : Prop :=
  exists now m rest, evs = (now, Errored m) :: rest /\ now < delay.

Definition connectStalls (delay : Z) (evs : list (Z * SocketEvent)) : Prop :=
  match evs with
  | [] => True
  | (now, _) :: _ => delay <= now
  end.

End Dispatch.

(* ================================================================= *)
(** ** A small network, for examples *)

Module Scenario.

Import Discovery Dispatch.
Local Open Scope Z_scope.

Definition quote : jsstring := [34%N].

(** The reply [{"type":"printer"}]. *)
Definition announcement : jsstring :=
  Eval cbv in
    lit "{" ++ quote ++ lit "type" ++ quote ++ lit ":"
    ++ quote ++ lit "printer" ++ quote ++ lit "}".

Definition plainReply : jsstring := Eval cbv in lit "PRINTER_READY".

(** A stand-in for [JSON.parse] that agrees with it on the replies of
    the scenario: it reads [announcement] and throws on [plainReply]
    (and on every other text). *)
Definition sampleParse (text : jsstring) : option Json :=
  if str_eqb text announcement
  then Some (JObj [(typeKey, JStr printerMarker)])
  else None.

(** Case mapping of non-ASCII text is not needed in the examples. *)
Definition sampleLower (s : jsstring) : jsstring := s.

Definition printerHost : jsstring := Eval cbv in lit "192.168.1.100".

(** The agent is at 192.168.1.7; one printer, at 192.168.1.100,
    listens on port 9100 and answers the discovery broadcast. *)
Definition interfaces : list (jsstring * list Iface) :=
  [ (lit "lo", [ {| family := IPv4; internal := true;
                    address := loopback |} ]);
    (lit "wlan0", [ {| family := IPv4; internal := false;
                       address := lit "192.168.1.7" |} ]) ].

Definition accepts (host : jsstring) (port : Z) : bool :=
  str_eqb host printerHost && (port =? 9100).

Definition replies : list UdpEvent := [ Message announcement printerHost ].

Definition scanned : Printer :=
  {| host := printerHost; port := JNum 9100;
     name := JStr (lit "Printer-192.168.1.100:9100"); type := tcpType |}.

Definition announced : Printer :=
  {| host := printerHost; port := JNum 9100;
     name := JStr (lit "Printer-192.168.1.100"); type := discoveredType |}.

(** [fetch] of node-fetch when no response comes, for a URL that is
    in the normal form in which the error message quotes it: with a
    [timeout] option other than 0 the promise is rejected when that
    delay has passed; with 0 no timer is set and the promise stays
    pending. *)
Definition unanswered (url : jsstring) (timeout : Z) : HttpScript :=
  if timeout =? 0 then Silent
  else FetchFails (timerDelay timeout) (lit "network timeout at: " ++ url).

(** A network on which nothing ever answers. *)
Definition deadNetwork : Network :=
  {| tcp := fun _ _ => {| throws := None; events := [] |};
     ws := fun _ => {| throws := None; events := [] |};
     http := fun url _ timeout => unanswered url timeout |}.

(** A network whose hosts refuse every stream connection after
    3 ms. *)
Definition refusingNetwork : Network :=
  {| tcp := fun _ _ =>
              {| throws := None;
                 events := [ (3, Errored (lit "connect ECONNREFUSED"));
                             (3, Closed) ] |};
     ws := fun _ => {| throws := None; events := [] |};
     http := fun url _ timeout => unanswered url timeout |}.

End Scenario.

(* ================================================================= *)
(** ** The restart handler: [handleRestart] *)

Module Supervisor.

Local Open Scope Z_scope.

Definition MAX_RESTART_ATTEMPTS : Z := 100.

(** The process as the restart handler sees it: the global
    [restartCount], whether [process.exit(1)] has been called, and the
    restarts scheduled with [setTimeout], each with its delay. *)
Record Process : Type :=
  { restartCount : Z; exited : bool; scheduled : list Z }.

(** The process when the script is loaded. *)
Definition boot : Process :=
  {| restartCount := 0; exited := false; scheduled := [] |}.

(** [handleRestart(reason)], with [CONFIG.retryDelay] as it is at the
    call; the reason is only logged.  Nothing runs in a process that
    has exited. *)
Definition handleRestart (retryDelay : Z) (p : Process) : Process :=
  if exited p then p
  else if MAX_RESTART_ATTEMPTS <=? restartCount p then
    {| restartCount := restartCount p;
       exited := true;
       scheduled := scheduled p |}
  else
    {| restartCount := restartCount p + 1;
       exited := false;
       scheduled := scheduled p ++ [retryDelay] |}.

(** The process after a series of faults (uncaught exceptions,
    unhandled rejections, failed starts), each given by the retry
    delay in force when it occurs. *)
Definition afterFaults (faults : list Z) : Process :=
  fold_left (fun p retryDelay => handleRestart retryDelay p) faults boot.

End Supervisor.

(* ================================================================= *)
(** ** The HTTP route [POST /api/print] *)

Module FrontDoor.

Import Dispatch.
Local Open Scope Z_scope.

(** The body of the request, for a body whose [data], [protocol] and
    [format] are strings when present; [None] is [undefined]. *)
Record PrintRequest : Type :=
  { data : option jsstring;
    printer : option Json;
    protocol : option jsstring;
    format : option jsstring }.

(** The JSON body of the response: the result of the dispatch, or
    [{success: false, error}]. *)
Inductive Body : Type :=
| PrintDone (result : PrintResult)
| Failure (error : jsstring).

Record Response : Type := { status : Z; body : Body }.

(** What handling a request comes to: the network operations
    performed and the response with the time at which it is sent;
    [None] when no response is ever sent. *)
Record Handled : Type :=
  { network : list NetOp; response : option (Z * Response) }.

Definition printDataRequired : jsstring :=
  Eval cbv in lit "Print data is required".

Section Routes.

Variable unicodeLower : jsstring -> jsstring.
Variable JSON_parse : jsstring -> option Json.
Variable cfg : Config.
Variable net : Network.

(** The handler of [POST /api/print]. *)
Definition postPrint (req : PrintRequest) : Handled :=
  let protocol := match protocol req with Some p => p | None => rawName end in
  let format := match format req with Some f => f | None => escpos end in
  match data req with
  | Some (c :: rest) =>
      let run :=
        printWithProtocol unicodeLower JSON_parse cfg net
                          (c :: rest) (printer req) protocol format in
      {| network := ops run;
         response :=
           match settled run with
           | Some (now, Resolved result) =>
               Some (now, {| status := 200; body := PrintDone result |})
           | Some (now, Rejected error) =>
               Some (now, {| status := 500;
                             body := Failure (errorMessage error) |})
           | None => None
           end |}
  | _ =>
      {| network := [];
         response := Some (0, {| status := 400;
                                 body := Failure printDataRequired |}) |}
  end.

End Routes.

End FrontDoor.

(* ================================================================= *)
(** ** Notions used in the further properties *)

Module Notions.

Import Discovery Dispatch.
Local Open Scope Z_scope.

(** The record [testConnection] resolves with on connect. *)
Definition tcpRecord (host : jsstring) (port : Z) : Printer :=
  {| host := host;
     port := JNum port;
     name := JStr (printerPrefix ++ host ++ [58%N] ++ decimal port);
     type := tcpType |}.

(** A printer as the broadcast handler builds it from a reply that
    some host sent. *)
Definition announcedIn (events : list UdpEvent) (p : Printer) : Prop :=
  type p = discoveredType
  /\ truthy (Some (port p)) = true
  /\ truthy (Some (name p)) = true
  /\ exists msg, In (Message msg (host p)) events.

(** A stand-in for [JSON.parse] that agrees with it on the text
    [null]: it reads that text and throws on every other one. *)
Definition nullParse (text : jsstring) : option Json :=
  if str_eqb text (lit "null") then Some JNull else None.

(** The operations that put data on a stream socket. *)
Definition writesData (op : NetOp) : bool :=
  match op with
  | TcpWrite _ => true
  | TcpEnd => true
  | _ => false
  end.

(** The socket reports that it is closed, before the timer is due,
    without having reported a connect or an error. *)
Definition closesUnannounced (delay : Z) (evs : list (Z * SocketEvent))
  : Prop :=
  match evs with
  | (now, Closed) :: _ => now < delay
  | _ => False
  end.

(** A network whose printer accepts the stream connection after
    5 ms. *)
Definition acceptingNetwork : Network :=
  {| tcp := fun _ _ => {| throws := None; events := [ (5, Connected) ] |};
     ws := fun _ => {| throws := None; events := [ (5, Opened) ] |};
     http := fun _ _ _ => Responds 5 200 (lit "OK") |}.

(** A network whose stream socket reports a close after 2 ms and
    nothing else. *)
Definition closingNetwork : Network :=
  {| tcp := fun _ _ => {| throws := None; events := [ (2, Closed) ] |};
     ws := fun _ => {| throws := None; events := [] |};
     http := fun url _ timeout => Scenario.unanswered url timeout |}.

(** A network whose channel opens after 5 ms and delivers the reply
    [{"type":"printer"}], which has no [success], after 9 s. *)
Definition lateReplyNetwork : Network :=
  {| tcp := fun _ _ => {| throws := None; events := [] |};
     ws := fun _ =>
             {| throws := None;
                events := [ (5, Opened);
                            (9000, Received Scenario.announcement) ] |};
     http := fun url _ timeout => Scenario.unanswered url timeout |}.

End Notions.

(* ================================================================= *)
(** ** The broadcast handler of the interactive tester

  [test-printer.js] has a [discoverByBroadcast] of its own.  Its
  ['message'] handler differs from the one of the agent in the type
  it gives an announced printer and in its [catch] block, which is
  not empty. *)

Module Tester.

Import Discovery.
Local Open Scope Z_scope.

Definition broadcastType : jsstring := Eval cbv in lit "broadcast".
Definition broadcastSimpleType : jsstring :=
  Eval cbv in lit "broadcast_simple".

(** The record the [catch] block pushes. *)
Definition simpleRecord (rinfoAddress : jsstring) : Printer :=
  {| host := rinfoAddress;
     port := JNum 9100;
     name := JStr (printerPrefix ++ rinfoAddress);
     type := broadcastSimpleType |}.

Section Handler.

Variable JSON_parse : jsstring -> option Json.

(** The [catch] block: it sees the text of the datagram, trimmed. *)
Definition onParseError (printers : list Printer)
           (msg rinfoAddress : jsstring) : list Printer :=
  let msgStr := trim msg in
  if hasPlainTextMarker msgStr
  then printers ++ [simpleRecord rinfoAddress]
  else printers.

(** The ['message'] handler: the array [printers] after the call.
    Whatever the [try] block throws, the parser's error or the
    [TypeError] of reading [type] of [null], ends in the [catch]
    block. *)
Definition onMessage (printers : list Printer)
           (msg rinfoAddress : jsstring) : list Printer :=
  match JSON_parse msg with
  | Some response =>
      match getProp response typeKey with
      | Value (Some (JStr t)) =>
          if str_eqb t printerMarker then
            match getProp response portKey, getProp response nameKey with
            | Value responsePort, Value responseName =>
                printers ++
                [ {| host := rinfoAddress;
                     port := orElse responsePort (JNum 9100);
                     name := orElse responseName
                               (JStr (printerPrefix ++ rinfoAddress));
                     type := broadcastType |} ]
            | _, _ => onParseError printers msg rinfoAddress
            end
          else printers
      | Value _ => printers
      | Throws => onParseError printers msg rinfoAddress
      end
  | None => onParseError printers msg rinfoAddress
  end.

End Handler.

End Tester.

(* ================================================================= *)
(** * Properties *)

(** ** Strings *)

Module JsStringFacts.

Lemma str_eqb_eq (a b : jsstring) : str_eqb a b = true <-> a = b.
Proof.
  revert b; induction a as [|x a IH]; intros [|y b]; simpl;
    try (split; congruence).
  rewrite andb_true_iff, N.eqb_eq, IH. split.
  - intros [-> ->]; reflexivity.
  - intros H; inversion H; auto.
Qed.

Lemma str_eqb_refl (a : jsstring) : str_eqb a a = true.
Proof. apply str_eqb_eq; reflexivity. Qed.

Lemma str_eqb_neq (a b : jsstring) : str_eqb a b = false <-> a <> b.
Proof.
  rewrite <- str_eqb_eq. destruct (str_eqb a b); split; congruence.
Qed.

Lemma prefixb_app (p s : jsstring) :
  prefixb p s = true <-> exists rest, s = p ++ rest.
Proof.
  revert s; induction p as [|x p IH]; intros s; simpl.
  - split; [intros _; exists s; reflexivity | reflexivity].
  - destruct s as [|y s].
    + split; [discriminate | intros [r Hr]; discriminate].
    + rewrite andb_true_iff, N.eqb_eq, IH. split.
      * intros [-> [r ->]]. exists r; reflexivity.
      * intros [r Hr]. inversion Hr; subst. split; [reflexivity | eauto].
Qed.

(** [includes] is the occurrence of the pattern as a substring. *)
Lemma includes_occurs (s pat : jsstring) :
  includes s pat = true <-> exists a b, s = a ++ pat ++ b.
Proof.
  induction s as [|c s IH]; simpl.
  - rewrite orb_false_r, prefixb_app. split.
    + intros [r Hr]. exists [], r. exact Hr.
    + intros [a [b H]]. destruct a; simpl in H.
      * exists b; exact H.
      * discriminate.
  - rewrite orb_true_iff, prefixb_app, IH. split.
    + intros [[r Hr] | [a [b H]]].
      * exists [], r. exact Hr.
      * exists (c :: a), b. simpl. now rewrite H.
    + intros [a [b H]]. destruct a as [|x a]; simpl in H.
      * left. exists b. exact H.
      * right. inversion H; subst. exists a, b. reflexivity.
Qed.

Lemma includes_rev (s pat : jsstring) :
  includes (rev s) pat = includes s (rev pat).
Proof.
  apply eq_true_iff_eq. rewrite !includes_occurs. split.
  - intros [a [b H]]. exists (rev b), (rev a).
    rewrite <- (rev_involutive s), H, !rev_app_distr.
    now rewrite <- app_assoc.
  - intros [a [b H]]. exists (rev b), (rev a).
    rewrite H, !rev_app_distr, rev_involutive.
    now rewrite <- app_assoc.
Qed.

(** White space in front of a string holds no part of a pattern that
    begins with another character. *)
Lemma includes_trimStart (s p : jsstring) (x : N) :
  isWhiteSpace x = false ->
  includes (trimStart s) (x :: p) = includes s (x :: p).
Proof.
  intros Hx. induction s as [|c s IH]; [reflexivity|].
  cbn [trimStart]. destruct (isWhiteSpace c) eqn:Hc; [|reflexivity].
  rewrite IH. cbn [includes prefixb].
  destruct (N.eqb_spec x c) as [->|_]; [congruence | reflexivity].
Qed.

(** Trimming a string does not change whether it holds a pattern that
    begins and ends with characters other than white space. *)
Lemma includes_trim (s p : jsstring) (x y : N) (q : jsstring) :
  isWhiteSpace x = false ->
  rev (x :: p) = y :: q ->
  isWhiteSpace y = false ->
  includes (trim s) (x :: p) = includes s (x :: p).
Proof.
  intros Hx Hrev Hy. unfold trim.
  rewrite includes_rev, Hrev, (@includes_trimStart _ q y Hy), <- Hrev.
  rewrite includes_rev, rev_involutive.
  now apply includes_trimStart.
Qed.

Lemma split_nonempty (sep : N) (s : jsstring) : split sep s <> [].
Proof.
  destruct s as [|c s]; simpl; [discriminate|].
  destruct (N.eqb c sep); [discriminate|].
  destruct (split sep s); discriminate.
Qed.

(** The pieces of a split, joined by the separator, give the string
    back. *)
Lemma join_split (sep : N) (s : jsstring) : join [sep] (split sep s) = s.
Proof.
  induction s as [|c s IH]; simpl; [reflexivity|].
  destruct (N.eqb_spec c sep) as [->|Hc].
  - pose proof (split_nonempty sep s) as Hne.
    destruct (split sep s) as [|p ps]; [congruence|].
    simpl in *. now rewrite IH.
  - pose proof (split_nonempty sep s) as Hne.
    destruct (split sep s) as [|p ps]; [congruence|].
    destruct ps as [|q ps]; simpl in *; now rewrite <- IH.
Qed.

End JsStringFacts.

Import JsStringFacts.

(* ================================================================= *)
(** ** The encoder *)

Module EscposFacts.

Import Escpos.
Local Open Scope N_scope.

Lemma fold_emit (f : jsstring -> jsstring) (lines : list jsstring)
      (commands : jsstring) :
  fold_left (fun commands line => commands ++ f line) lines commands
  = commands ++ flat_map f lines.
Proof.
  revert commands; induction lines as [|l lines IH]; intros commands; simpl.
  - now rewrite app_nil_r.
  - rewrite IH, <- app_assoc. reflexivity.
Qed.

(** The twelve replacements in a row amount to one pass that looks
    each code unit up in [turkishMap]: no replacement writes a code
    unit that a later one reads. *)
Lemma substitute_one_pass (text : jsstring) :
  substitute text = map encodeUnit text.
Proof.
  unfold substitute.
  assert (G : forall m t,
             fold_left (fun processedText entry =>
                          replaceAll (fst entry) (snd entry) processedText)
                       m t
             = map (fun u => fold_left
                               (fun v entry =>
                                  if N.eqb v (fst entry) then snd entry else v)
                               m u) t).
  { induction m as [|e m IH]; intros t; simpl.
    - now rewrite map_id.
    - rewrite IH. unfold replaceAll. now rewrite map_map. }
  rewrite G. apply map_ext. intros u. unfold encodeUnit, turkishMap.
  cbn [fold_left find fst snd].
  repeat match goal with
         | |- context [N.eqb u ?k] =>
             destruct (N.eqb_spec u k) as [->|_]; [reflexivity|]
         end.
  reflexivity.
Qed.

(** The output is the opening codes, then what each line of the
    substituted text emits, then the cut code. *)
Lemma convertToESCPOS_layout (text : jsstring) :
  convertToESCPOS text
  = opening ++ flat_map emitLine (split 10 (substitute text)) ++ paperCut.
Proof.
  unfold convertToESCPOS. rewrite fold_emit.
  rewrite <- app_assoc. reflexivity.
Qed.

Lemma latin1_app (a b : jsstring) : latin1 (a ++ b) = latin1 a ++ latin1 b.
Proof. apply map_app. Qed.

(** C2, as the specification states it, fails: for the empty text
    the output is not the four structural codes alone. *)
Lemma empty_text_has_more_than_structural_codes :
  convertToESCPOS [] <> opening ++ paperCut.
Proof. vm_compute. discriminate. Qed.

(** C2 (amended): the empty text splits into one empty line, so its
    encoding is the three opening codes, one line feed (the one empty
    content line) and the paper-cut code, and nothing else. *)
Theorem empty_text_encoding :
  split 10 (substitute []) = [[]]
  /\ convertToESCPOS [] = opening ++ LF ++ paperCut
  /\ convertToESCPOS [] = [27; 64; 27; 116; 18; 27; 82; 18; 10; 29; 86; 0].
Proof. repeat split; reflexivity. Qed.

(** C3: for every text the output starts with the three fixed opening
    codes (initialize, code page select, character set select) and ends
    with the fixed paper-cut code, whatever the text; the same holds
    of the bytes written to the socket. *)
Theorem structural_codes_frame_every_output (text : jsstring) :
  startsWith (convertToESCPOS text)
             (initialize ++ selectCodepage ++ selectCharset)
  /\ endsWith (convertToESCPOS text) paperCut
  /\ startsWith (latin1 (convertToESCPOS text))
                (initialize ++ selectCodepage ++ selectCharset)
  /\ endsWith (latin1 (convertToESCPOS text)) paperCut.
Proof.
  rewrite convertToESCPOS_layout.
  set (body := flat_map emitLine (split 10 (substitute text))).
  fold opening. repeat split.
  - exists (body ++ paperCut). reflexivity.
  - exists (opening ++ body). now rewrite <- app_assoc.
  - exists (latin1 body ++ paperCut). now rewrite !latin1_app.
  - exists (opening ++ latin1 body). now rewrite !latin1_app, <- app_assoc.
Qed.

(** The chain of tests of the line loop picks the first entry of the
    list of matching rules. *)
Lemma emitLine_firstMatchWins (line : jsstring) :
  emitLine line = firstMatchWins line.
Proof.
  unfold emitLine, firstMatchWins, matching, rules; simpl.
  destruct (includes line TITLE);
    [unfold bracket; simpl; now rewrite <- app_assoc|].
  destruct (includes line TOTAL);
    [unfold bracket; simpl; now rewrite <- app_assoc|].
  destruct (includes line RULE);
    [unfold bracket; simpl; now rewrite <- app_assoc|reflexivity].
Qed.

(** The rules that match a line are listed by priority: an earlier
    one comes before a later one in [rules]. *)
Lemma matching_in_priority_order (line : jsstring) (r r' : Rule)
      (front rest : list Rule) :
  matching line = front ++ r :: r' :: rest ->
  exists a b c, rules = a ++ r :: b ++ r' :: c.
Proof.
  unfold matching, rules; simpl.
  destruct (includes line TITLE), (includes line TOTAL),
    (includes line RULE); simpl; intros H.
  all: destruct front as [|x [|y [|z front]]]; simpl in H;
    inversion H; subst.
  all: try (exists [], [], [separatorRule]; reflexivity).
  all: try (exists [], [totalRule], []; reflexivity).
  all: try (exists [titleRule], [], []; reflexivity).
  all: try (exists [], [], []; reflexivity).
  all: try (destruct front; discriminate).
Qed.

(** C4: what the encoder emits for a line is the bracketing of the
    rule of highest priority (title, then total, then rule line) among
    all the rules whose pattern occurs in the line; in particular a
    line that matches two or more patterns gets the codes of the first
    of them only, and a line that matches none is emitted as it is,
    followed by its line feed.  The whole output is made of these
    per-line results. *)
Theorem first_matching_pattern_wins :
  (forall line, emitLine line = firstMatchWins line)
  /\ (forall line r r' rest,
         matching line = r :: r' :: rest ->
         emitLine line = before r ++ line ++ LF ++ after r)
  /\ (forall line, matching line = [] -> emitLine line = line ++ LF)
  /\ (forall text,
         convertToESCPOS text
         = opening ++ flat_map firstMatchWins (split 10 (substitute text))
           ++ paperCut).
Proof.
  split; [exact emitLine_firstMatchWins|].
  split.
  { intros line r r' rest H. rewrite emitLine_firstMatchWins.
    unfold firstMatchWins. now rewrite H. }
  split.
  { intros line H. rewrite emitLine_firstMatchWins.
    unfold firstMatchWins. now rewrite H. }
  intros text. rewrite convertToESCPOS_layout. do 2 f_equal.
  apply flat_map_ext. exact emitLine_firstMatchWins.
Qed.

(** A line with the total and the rule pattern, as an instance. *)
Lemma first_matching_pattern_wins_witness :
  matching (lit "TOPLAM: === 12") = [totalRule; separatorRule]
  /\ emitLine (lit "TOPLAM: === 12")
     = before totalRule ++ lit "TOPLAM: === 12" ++ LF ++ after totalRule.
Proof.
  split; [reflexivity|].
  exact (proj1 (proj2 first_matching_pattern_wins)
               (lit "TOPLAM: === 12") totalRule separatorRule [] eq_refl).
Defined.

End EscposFacts.

(* ================================================================= *)
(** ** JSON values *)

Module JsValueFacts.



Lemma truthy_orElse (v : option Json) (d : Json) :
  truthy v = false -> orElse v d = d.
Proof. destruct v as [x|]; simpl; [intros ->|]; reflexivity. Qed.

End JsValueFacts.

Import JsValueFacts.

(* ================================================================= *)
(** ** Discovery *)

Module DiscoveryFacts.

Import Discovery.
Local Open Scope Z_scope.

Lemma parsePrinter_stringify (p : Printer) :
  parsePrinter (JSON_stringify p) = p.
Proof. destruct p; reflexivity. Qed.

Lemma JSON_stringify_inj (p q : Printer) :
  JSON_stringify p = JSON_stringify q -> p = q.
Proof.
  intros H. rewrite <- (parsePrinter_stringify p), H.
  apply parsePrinter_stringify.
Qed.







Section Merge.

Variable tcpAccepts : jsstring -> Z -> bool.
Variable JSON_parse : jsstring -> option Json.

Lemma commonLoop_fulfils (addresses : list jsstring) :
  Forall (fun address =>
            exists p, parseInt (nth_error (split 58 address) 1) = Some p
                      /\ legalPort p = true)
         addresses ->
  forall printers,
  exists found, commonLoop tcpAccepts addresses printers = Fulfilled found.
Proof.
  induction 1 as [|address addresses [p [Hp Hlegal]] _ IH]; intros printers.
  - exists printers. reflexivity.
  - cbn [commonLoop]. rewrite Hp. unfold testConnection. rewrite Hlegal.
    destruct (tcpAccepts _ p); apply IH.
Qed.

(** The strategy over the common addresses never rejects: every
    address of the list has a port that [connect] accepts. *)
Lemma discoverByCommonAddresses_fulfils :
  exists found, discoverByCommonAddresses tcpAccepts = Fulfilled found.
Proof.
  apply commonLoop_fulfils. unfold commonAddresses.
  repeat constructor; exists 9100; split; reflexivity.
Qed.


End Merge.

Import Scenario.

(** C1: the merge does not key on the address.  In the scenario the
    printer at 192.168.1.100:9100 is found by the port scan, by the
    broadcast and by the list of common addresses.  The two records
    of type [tcp] are equal and collapse; the record of the broadcast
    differs from them in [name] and [type], so the result holds two
    printers with the same [(host, port)]. *)
Theorem same_address_is_reported_twice :
  discoverByPortScan accepts interfaces = [scanned]
  /\ discoverByBroadcast sampleParse replies = [announced]
  /\ discoverByCommonAddresses accepts = Fulfilled [scanned]
  /\ discoverPrinters accepts sampleParse interfaces replies
     = [scanned; announced]
  /\ sameAddress scanned announced
  /\ scanned <> announced.
Proof.
  split; [vm_compute; reflexivity|].
  split; [vm_compute; reflexivity|].
  split; [vm_compute; reflexivity|].
  split; [vm_compute; reflexivity|].
  split; [split; reflexivity | discriminate].
Qed.

Section Broadcast.

Variable JSON_parse : jsstring -> option Json.

Lemma onMessage_extends (printers : list Printer) (msg addr : jsstring) :
  exists found, onMessage JSON_parse printers msg addr = printers ++ found.
Proof.
  unfold onMessage.
  destruct (JSON_parse msg) as [response|]; [|exists []; now rewrite app_nil_r].
  destruct (getProp response typeKey) as [|[[ | | |t| | ]|]];
    try (exists []; now rewrite app_nil_r).
  destruct (str_eqb t printerMarker); [|exists []; now rewrite app_nil_r].
  destruct (getProp response portKey), (getProp response nameKey);
    try (exists []; now rewrite app_nil_r).
  eexists. reflexivity.
Qed.

Lemma broadcastLoop_keeps (events : list UdpEvent) :
  errorFree events = true ->
  forall printers p, In p printers -> In p (broadcastLoop JSON_parse events printers).
Proof.
  induction events as [|[msg addr|] events IH]; simpl; intros H printers p Hp.
  - exact Hp.
  - apply IH; [exact H|].
    destruct (onMessage_extends printers msg addr) as [found ->].
    apply in_or_app. now left.
  - discriminate.
Qed.

Lemma broadcastLoop_app (before after : list UdpEvent) (printers : list Printer) :
  errorFree before = true ->
  broadcastLoop JSON_parse (before ++ after) printers
  = broadcastLoop JSON_parse after (broadcastLoop JSON_parse before printers).
Proof.
  revert printers. induction before as [|[msg addr|] before IH]; simpl;
    intros printers H.
  - reflexivity.
  - now apply IH.
  - discriminate.
Qed.

Lemma broadcastLoop_skip (before after : list UdpEvent) (msg addr : jsstring) :
  (forall printers, onMessage JSON_parse printers msg addr = printers) ->
  forall printers,
    broadcastLoop JSON_parse (before ++ Message msg addr :: after) printers
    = broadcastLoop JSON_parse (before ++ after) printers.
Proof.
  intros Hskip. induction before as [|[m a|] before IH]; simpl; intros printers.
  - now rewrite Hskip.
  - apply IH.
  - reflexivity.
Qed.

(** The marker test reads the same on the trimmed text. *)
Lemma hasPlainTextMarker_trim (msg : jsstring) :
  hasPlainTextMarker (trim msg) = hasPlainTextMarker msg.
Proof.
  unfold hasPlainTextMarker. f_equal.
  - apply (@includes_trim msg _ _ 82%N (lit "ETNIRP")); reflexivity.
  - apply (@includes_trim msg _ _ 67%N (lit "SE")); reflexivity.
Qed.

(** A reply that is not JSON leaves [printers] as it is, and the
    result of the strategy is the one it has without that reply. *)
Lemma unparsable_reply_skipped (msg addr : jsstring) :
  JSON_parse msg = None ->
  (forall printers, onMessage JSON_parse printers msg addr = printers)
  /\ (forall before after,
         discoverByBroadcast JSON_parse (before ++ Message msg addr :: after)
         = discoverByBroadcast JSON_parse (before ++ after)).
Proof.
  intros Hparse.
  assert (Hskip : forall printers,
             onMessage JSON_parse printers msg addr = printers).
  { intros printers. unfold onMessage. now rewrite Hparse. }
  split; [exact Hskip|].
  intros before after. unfold discoverByBroadcast.
  now apply broadcastLoop_skip.
Qed.

(** C5: the agent does not do what the claim says.  A reply that
    fails to parse as JSON and holds one of the plain-text markers
    ([PRINTER], [ESC]) adds nothing in the agent: its handler leaves
    [printers] as it is and the strategy returns what it returns
    without that reply.  The handler of the same strategy in the
    tester, given the same reply, adds a printer with the replier's
    address as host, port 9100 and the type [broadcast_simple]. *)
Theorem marked_plain_reply_is_dropped (msg addr : jsstring) :
  JSON_parse msg = None ->
  hasPlainTextMarker msg = true ->
  (forall printers, onMessage JSON_parse printers msg addr = printers)
  /\ (forall before after,
         discoverByBroadcast JSON_parse (before ++ Message msg addr :: after)
         = discoverByBroadcast JSON_parse (before ++ after))
  /\ (forall printers,
         Tester.onMessage JSON_parse printers msg addr
         = printers ++
           [ {| host := addr;
                port := JNum 9100;
                name := JStr (printerPrefix ++ addr);
                type := Tester.broadcastSimpleType |} ]).
Proof.
  intros Hparse Hmarker.
  destruct (@unparsable_reply_skipped msg addr Hparse) as [Hskip Hsame].
  split; [exact Hskip|]. split; [exact Hsame|].
  intros printers. unfold Tester.onMessage, Tester.onParseError.
  now rewrite Hparse, hasPlainTextMarker_trim, Hmarker.
Qed.

(** C10: a reply that parses as a JSON object whose [type] is
    ['printer'] adds one printer with the replier's address as host;
    when the object has no [port] the port is 9100, and when it has no
    [name] the name is ['Printer-'] followed by the replier's address.
    Unless a socket error ends the strategy, that printer is in its
    result. *)
Theorem announced_printer_defaults
        (msg addr : jsstring) (fields : list (jsstring * Json)) :
  JSON_parse msg = Some (JObj fields) ->
  lookup typeKey fields = Some (JStr printerMarker) ->
  exists p,
    (forall printers,
        onMessage JSON_parse printers msg addr = printers ++ [p])
    /\ host p = addr
    /\ type p = discoveredType
    /\ (lookup portKey fields = None -> port p = JNum 9100)
    /\ (lookup nameKey fields = None -> name p = JStr (printerPrefix ++ addr))
    /\ (forall before after,
           errorFree (before ++ after) = true ->
           In p (discoverByBroadcast JSON_parse
                   (before ++ Message msg addr :: after))).
Proof.
  intros Hparse Htype.
  set (p := {| host := addr;
               port := orElse (lookup portKey fields) (JNum 9100);
               name := orElse (lookup nameKey fields)
                              (JStr (printerPrefix ++ addr));
               type := discoveredType |}).
  assert (Hmsg : forall printers,
             onMessage JSON_parse printers msg addr = printers ++ [p]).
  { intros printers. unfold onMessage. rewrite Hparse. simpl.
    rewrite Htype. reflexivity. }
  exists p. split; [exact Hmsg|].
  split; [reflexivity|]. split; [reflexivity|].
  split; [intros H; simpl; now rewrite H|].
  split; [intros H; simpl; now rewrite H|].
  intros before after Hfree. unfold errorFree in Hfree.
  rewrite forallb_app in Hfree. apply andb_true_iff in Hfree.
  destruct Hfree as [Hb Ha].
  unfold discoverByBroadcast. rewrite broadcastLoop_app by exact Hb.
  simpl. apply broadcastLoop_keeps; [exact Ha|].
  rewrite Hmsg. apply in_or_app. right. now left.
Qed.

End Broadcast.

(** The datagram [PRINTER_READY] from 192.168.1.100, as an instance:
    the agent finds no printer, the tester's handler finds one. *)
Lemma marked_plain_reply_is_dropped_witness :
  sampleParse plainReply = None
  /\ hasPlainTextMarker plainReply = true
  /\ discoverByBroadcast sampleParse [Message plainReply printerHost] = []
  /\ Tester.onMessage sampleParse [] plainReply printerHost
     = [ {| host := printerHost;
            port := JNum 9100;
            name := JStr (lit "Printer-192.168.1.100");
            type := lit "broadcast_simple" |} ].
Proof.
  split; [reflexivity|]. split; [reflexivity|].
  destruct (@marked_plain_reply_is_dropped sampleParse plainReply printerHost
              eq_refl eq_refl) as [_ [Hsame Htester]].
  split.
  - exact (Hsame [] []).
  - exact (Htester []).
Defined.

(** The reply [{"type":"printer"}] of the scenario, which has neither
    [port] nor [name], as an instance. *)
Lemma announced_printer_defaults_witness :
  sampleParse announcement = Some (JObj [(typeKey, JStr printerMarker)])
  /\ exists p,
      (forall printers,
          onMessage sampleParse printers announcement printerHost
          = printers ++ [p])
      /\ host p = printerHost
      /\ type p = discoveredType
      /\ (lookup portKey [(typeKey, JStr printerMarker)] = None ->
          port p = JNum 9100)
      /\ (lookup nameKey [(typeKey, JStr printerMarker)] = None ->
          name p = JStr (printerPrefix ++ printerHost))
      /\ (forall before after,
             errorFree (before ++ after) = true ->
             In p (discoverByBroadcast sampleParse
                     (before ++ Message announcement printerHost :: after))).
Proof.
  split; [reflexivity|].
  apply (announced_printer_defaults sampleParse announcement printerHost
           (fields := [(typeKey, JStr printerMarker)]));
    reflexivity.
Defined.

End DiscoveryFacts.

(* ================================================================= *)
(** ** [parseInt] and [split] on an address *)

Module AddressFacts.

Local Open Scope N_scope.






Lemma beforeFirst_cut (sep : N) (s : jsstring) :
  s = beforeFirst sep s
  \/ exists more, s = beforeFirst sep s ++ sep :: more.
Proof.
  induction s as [|c s IH]; simpl; [now left|].
  destruct (N.eqb_spec c sep) as [->|Hc].
  - right. exists s. reflexivity.
  - destruct IH as [IH | [more IH]].
    + left. now rewrite <- IH.
    + right. exists more. simpl. now rewrite <- IH.
Qed.


(** The first two pieces of a split. *)
Lemma split_first (sep : N) (s : jsstring) :
  hd [] (split sep s) = beforeFirst sep s.
Proof.
  induction s as [|c s IH]; simpl; [reflexivity|].
  destruct (N.eqb c sep); [reflexivity|].
  pose proof (split_nonempty sep s) as Hne.
  destruct (split sep s) as [|p ps]; [congruence|].
  simpl in *. now rewrite IH.
Qed.


End AddressFacts.

Import AddressFacts.

(* ================================================================= *)
(** ** Dispatch *)

Module DispatchFacts.

Import Escpos Dispatch Scenario.
Local Open Scope Z_scope.




Section Routing.

Variable unicodeLower : jsstring -> jsstring.
Variable JSON_parse : jsstring -> option Json.
Variable cfg : Config.
Variable net : Network.

Local Notation dispatch := (printWithProtocol unicodeLower JSON_parse cfg net).
Local Notation lower := (toLowerCase unicodeLower).

Lemma stream_selected (data : jsstring) (printer : option Json)
      (protocol format : jsstring) :
  In (lower protocol) [rawName; tcpName] ->
  dispatch data printer protocol format
  = printViaRawTCP cfg net data (resolvePrinter cfg printer) format.
Proof.
  unfold printWithProtocol. intros [H | [H | []]]; rewrite <- H; reflexivity.
Qed.

(** C6: a call whose protocol, in lower case, is none of
    ['websocket'], ['raw'], ['tcp'], ['http'] is rejected at once with
    the error ['Unsupported protocol: ...'], a configuration failure,
    and performs no network operation: no socket, channel or request
    is opened. *)
Theorem unsupported_protocol_fails_before_io
        (data : jsstring) (printer : option Json)
        (protocol format : jsstring) :
  ~ In (lower protocol) [websocketName; rawName; tcpName; httpName] ->
  dispatch data printer protocol format
  = {| ops := [];
       settled := Some (0, Rejected (UnsupportedProtocol protocol)) |}
  /\ failureKind (UnsupportedProtocol protocol) = ConfigurationFailure
  /\ errorMessage (UnsupportedProtocol protocol)
     = lit "Unsupported protocol: " ++ protocol.
Proof.
  intros Hnot. split; [|split; reflexivity].
  unfold printWithProtocol.
  assert (H : forall name,
             In name [websocketName; rawName; tcpName; httpName] ->
             str_eqb (lower protocol) name = false).
  { intros name Hin. apply str_eqb_neq. intros Heq. apply Hnot.
    now rewrite Heq. }
  rewrite !H by (simpl; auto). reflexivity.
Qed.

(** C9: the choice of the client depends on the protocol only through
    its lower-case form, and ['raw'] and ['tcp'] choose the same
    client: a protocol that is ['tcp'] or ['raw'] in any letter case
    runs the stream client on the same payload, printer and format as
    the protocol ['raw'] does. *)
Theorem transport_names_ignore_case
        (data : jsstring) (printer : option Json) (format : jsstring) :
  (forall p q,
      lower p = lower q ->
      In (lower p) [websocketName; rawName; tcpName; httpName] ->
      dispatch data printer p format = dispatch data printer q format)
  /\ (forall p,
         In (lower p) [rawName; tcpName] ->
         dispatch data printer p format
         = printViaRawTCP cfg net data (resolvePrinter cfg printer) format
         /\ dispatch data printer p format
            = dispatch data printer rawName format).
Proof.
  split.
  - intros p q Hpq Hin. unfold printWithProtocol. rewrite <- Hpq.
    destruct Hin as [H | [H | [H | [H | []]]]]; rewrite <- H; reflexivity.
  - intros p Hp. rewrite (stream_selected data printer p format Hp).
    split; [reflexivity|]. symmetry. apply stream_selected.
    left. reflexivity.
Qed.

(** *** The stream client *)

Lemma settle_settled (now : Z) (s : Settlement) (st : ClientState)
      (x : Z * Settlement) :
  settled (promise st) = Some x ->
  settled (promise (settle now s st)) = Some x.
Proof. unfold settle. intros H. now rewrite H. Qed.

Lemma rawTcpTimer_settled (st : ClientState) (x : Z * Settlement) :
  settled (promise st) = Some x ->
  settled (promise (rawTcpTimer cfg st)) = Some x.
Proof. intros H. unfold rawTcpTimer. now apply settle_settled. Qed.

Lemma rawTcpHandler_settled (printData : jsstring)
      (printer : list (jsstring * Json)) (now : Z) (ev : SocketEvent)
      (st : ClientState) (x : Z * Settlement) :
  settled (promise st) = Some x ->
  settled (promise (rawTcpHandler printData printer now ev st)) = Some x.
Proof.
  intros H. destruct ev; unfold rawTcpHandler;
    try apply settle_settled; exact H.
Qed.

(** A settled promise stays as it is, whatever comes later. *)
Lemma drive_settled (Event : Type) (onTimer : ClientState -> ClientState)
      (handle : Z -> Event -> ClientState -> ClientState)
      (x : Z * Settlement) :
  (forall st, settled (promise st) = Some x ->
              settled (promise (onTimer st)) = Some x) ->
  (forall now ev st, settled (promise st) = Some x ->
                     settled (promise (handle now ev st)) = Some x) ->
  forall delay evs st,
    settled (promise st) = Some x ->
    settled (promise (drive onTimer handle delay evs st)) = Some x.
Proof.
  intros HT HH delay evs. induction evs as [|[now ev] evs IH]; intros st H.
  - simpl. destruct (timerArmed st); auto.
  - simpl. destruct (timerArmed st && (delay <=? now)); auto.
Qed.

Section StreamCall.

Variable data format : jsstring.
Variable printerConfig : list (jsstring * Json).

Local Notation script :=
  (tcp net (orElse (lookup portKey printerConfig) (JNum 9100))
       (lookup hostKey printerConfig)).
Local Notation delay := (timerDelay (printerDiscoveryTimeout cfg)).
Local Notation call := (printViaRawTCP cfg net data printerConfig format).

(** A socket error before the timer is due rejects the promise when
    it is delivered. *)
Lemma connect_error_rejects (now : Z) (m : jsstring)
      (rest : list (Z * SocketEvent)) :
  throws script = None ->
  events script = (now, Errored m) :: rest ->
  now < delay ->
  settled call = Some (now, Rejected (TcpPrintFailed m)).
Proof.
  intros Hthrows Hev Hnow. unfold printViaRawTCP.
  rewrite Hthrows, Hev. simpl drive.
  apply Z.leb_gt in Hnow. rewrite Hnow. simpl andb. cbv iota.
  apply drive_settled.
  - intros st H. now apply rawTcpTimer_settled.
  - intros t ev st H. now apply rawTcpHandler_settled.
  - reflexivity.
Qed.

(** When nothing is delivered before the timer is due, the timer
    destroys the socket and rejects the promise. *)
Lemma connect_stall_times_out :
  throws script = None ->
  connectStalls delay (events script) ->
  call = {| ops := [ TcpConnect (orElse (lookup portKey printerConfig)
                                        (JNum 9100))
                                (lookup hostKey printerConfig);
                     TcpDestroy ];
            settled := Some (delay, Rejected PrinterConnectionTimeout) |}.
Proof.
  intros Hthrows Hstall. unfold printViaRawTCP. rewrite Hthrows.
  destruct (events script) as [|[now ev] rest]; simpl in *.
  - reflexivity.
  - apply Z.leb_le in Hstall. rewrite Hstall. reflexivity.
Qed.

(** Once the socket has connected the timer is cleared: the promise
    is resolved at that time and no deadline applies to what
    follows. *)
Lemma connect_clears_timer (now : Z) (rest : list (Z * SocketEvent)) :
  throws script = None ->
  events script = (now, Connected) :: rest ->
  now < delay ->
  exists result,
    settled call = Some (now, Resolved result)
    /\ success result = true /\ timestamp result = now.
Proof.
  intros Hthrows Hev Hnow. unfold printViaRawTCP.
  rewrite Hthrows, Hev. simpl drive.
  apply Z.leb_gt in Hnow. rewrite Hnow. simpl andb. cbv iota.
  eexists. split; [|split].
  - apply drive_settled.
    + intros st H. now apply rawTcpTimer_settled.
    + intros t ev st H. now apply rawTcpHandler_settled.
    + reflexivity.
  - reflexivity.
  - reflexivity.
Qed.

End StreamCall.

Lemma timerDelay_in_range (ms : Z) :
  1 <= ms <= 2147483647 -> timerDelay ms = ms.
Proof.
  intros [H1 H2]. unfold timerDelay.
  apply Z.ltb_ge in H1. rewrite H1.
  assert (H3 : (2147483647 <? ms) = false) by (apply Z.ltb_ge; exact H2).
  now rewrite H3.
Qed.

End Routing.

(** *** The timer of a stream call and the configuration *)

(** The printer a call resolves depends on the configuration through
    the default address only. *)
Lemma resolvePrinter_same_default (cfg cfg' : Config) (printer : option Json) :
  defaultPrinterHost cfg' = defaultPrinterHost cfg ->
  resolvePrinter cfg' printer = resolvePrinter cfg printer.
Proof.
  intros H. unfold resolvePrinter, defaultPrinter. now rewrite H.
Qed.

(** What [Object.assign] leaves of the configuration. *)
Lemma assignConfig_fields (body : list (jsstring * Json)) (cfg cfg' : Config) :
  assignConfig body cfg = Some cfg' ->
  (lookup defaultPrinterHostKey body = None ->
   defaultPrinterHost cfg' = defaultPrinterHost cfg)
  /\ (forall ms, lookup printerDiscoveryTimeoutKey body = Some (JNum ms) ->
                 printerDiscoveryTimeout cfg' = ms).
Proof.
  unfold assignConfig. intros H.
  destruct (lookup defaultPrinterHostKey body) as [[ | | |s| | ]|];
    try discriminate;
    destruct (lookup printerDiscoveryTimeoutKey body) as [[ | |z| | | ]|];
    try discriminate;
    injection H as <-; split; try discriminate;
    try (intros _; reflexivity);
    try (intros ms Hms; injection Hms as <-; reflexivity).
Qed.

Lemma settle_timer (now : Z) (s : Settlement) (st : ClientState) :
  timerArmed (settle now s st) = timerArmed st.
Proof. unfold settle. now destruct (settled (promise st)). Qed.

Lemma settle_ops (now : Z) (s : Settlement) (st : ClientState) :
  ops (promise (settle now s st)) = ops (promise st).
Proof. unfold settle. now destruct (settled (promise st)). Qed.

(** Every callback of the socket clears the timer. *)
Lemma handler_disarms (printData : jsstring) (printer : list (jsstring * Json))
      (now : Z) (ev : SocketEvent) (st : ClientState) :
  timerArmed (rawTcpHandler printData printer now ev st) = false.
Proof.
  destruct ev; unfold rawTcpHandler; try rewrite settle_timer; reflexivity.
Qed.

(** No callback of the socket destroys it. *)
Lemma handler_never_destroys (printData : jsstring)
      (printer : list (jsstring * Json))
      (now : Z) (ev : SocketEvent) (st : ClientState) :
  ~ In TcpDestroy (ops (promise st)) ->
  ~ In TcpDestroy (ops (promise (rawTcpHandler printData printer now ev st))).
Proof.
  intros H. destruct ev; unfold rawTcpHandler; try rewrite settle_ops;
    try exact H.
  cbn [emit clearTimeout promise ops]. rewrite <- app_assoc.
  intros Hin. apply in_app_or in Hin.
  destruct Hin as [Hin | [Hin | [Hin | []]]];
    [now apply H | discriminate | discriminate].
Qed.

(** With the timer cleared, the rest of a run depends neither on the
    timer's callback nor on its delay. *)
Lemma disarmed_run_ignores_timer (Event : Type)
      (onTimer onTimer' : ClientState -> ClientState)
      (handle : Z -> Event -> ClientState -> ClientState)
      (delay delay' : Z) :
  (forall now ev st, timerArmed (handle now ev st) = false) ->
  forall evs st,
    timerArmed st = false ->
    drive onTimer handle delay evs st = drive onTimer' handle delay' evs st.
Proof.
  intros Hh evs. induction evs as [|[now ev] evs IH]; intros st Hst;
    cbn [drive]; rewrite Hst; cbn [andb].
  - reflexivity.
  - apply IH, Hh.
Qed.

(** With the timer cleared, what the callbacks of the socket keep
    true stays true to the end of the run. *)
Lemma disarmed_run_invariant (Event : Type)
      (onTimer : ClientState -> ClientState)
      (handle : Z -> Event -> ClientState -> ClientState)
      (delay : Z) (P : ClientState -> Prop) :
  (forall now ev st, timerArmed (handle now ev st) = false) ->
  (forall now ev st, P st -> P (handle now ev st)) ->
  forall evs st,
    timerArmed st = false -> P st -> P (drive onTimer handle delay evs st).
Proof.
  intros Hh HP evs. induction evs as [|[now ev] evs IH]; intros st Hst H;
    cbn [drive]; rewrite Hst; cbn [andb].
  - exact H.
  - apply IH; [apply Hh | now apply HP].
Qed.

(** A call whose socket connects before the timer is due: the run
    from the connect on. *)
Lemma connected_run (cfg : Config) (net : Network) (data format : jsstring)
      (printerConfig : list (jsstring * Json))
      (now : Z) (rest : list (Z * SocketEvent)) :
  let port := orElse (lookup portKey printerConfig) (JNum 9100) in
  let host := lookup hostKey printerConfig in
  let handler := rawTcpHandler (encode data format) printerConfig in
  throws (tcp net port host) = None ->
  events (tcp net port host) = (now, Connected) :: rest ->
  now < timerDelay (printerDiscoveryTimeout cfg) ->
  printViaRawTCP cfg net data printerConfig format
  = promise (drive (rawTcpTimer cfg) handler
                   (timerDelay (printerDiscoveryTimeout cfg)) rest
                   (handler now Connected (emit (TcpConnect port host) start))).
Proof.
  intros port host handler Hthrows Hev Hnow. unfold printViaRawTCP.
  fold port host. rewrite Hthrows, Hev. cbn [drive].
  apply Z.leb_gt in Hnow. rewrite Hnow, andb_false_r. reflexivity.
Qed.

(** C7: a stream dispatch whose connect phase fails (a socket error
    before the timer is due) or does not complete before the timer is
    due is rejected with a connection failure no later than the timer
    delay, so the call does not hang.

    The timer covers the connect phase only.  A connect in time
    resolves the call and clears the timer: the socket is never
    destroyed, whatever follows and however late, and the outcome of
    the call is the same under every configured timeout that the
    connect beats.

    The delay is the configured [printerDiscoveryTimeout]: 5000 ms as
    the script sets it, and whatever number the caller has put in its
    place through [Object.assign(CONFIG, body)]; a call that stalls is
    then rejected when that delay has passed. *)
Theorem stream_connect_failure_is_reported_in_time
        (unicodeLower : jsstring -> jsstring)
        (JSON_parse : jsstring -> option Json)
        (cfg : Config) (net : Network)
        (data : jsstring) (printer : option Json)
        (protocol format : jsstring) :
  In (toLowerCase unicodeLower protocol) [rawName; tcpName] ->
  let dispatch := fun configuration =>
    printWithProtocol unicodeLower JSON_parse configuration net
                      data printer protocol format in
  let printerConfig := resolvePrinter cfg printer in
  let script :=
    tcp net (orElse (lookup portKey printerConfig) (JNum 9100))
        (lookup hostKey printerConfig) in
  let delay := timerDelay (printerDiscoveryTimeout cfg) in
  throws script = None ->
  (connectFails delay (events script) \/ connectStalls delay (events script) ->
   exists t e,
     settled (dispatch cfg) = Some (t, Rejected e)
     /\ t <= delay
     /\ failureKind e = ConnectionFailure)
  /\ (forall now rest,
         events script = (now, Connected) :: rest ->
         now < delay ->
         (exists result,
             settled (dispatch cfg) = Some (now, Resolved result)
             /\ success result = true)
         /\ ~ In TcpDestroy (ops (dispatch cfg))
         /\ (forall body cfg',
                assignConfig body cfg = Some cfg' ->
                lookup defaultPrinterHostKey body = None ->
                now < timerDelay (printerDiscoveryTimeout cfg') ->
                dispatch cfg' = dispatch cfg))
  /\ (1 <= printerDiscoveryTimeout cfg <= 2147483647 ->
      delay = printerDiscoveryTimeout cfg)
  /\ (forall PRINTER_ADDRESS,
         printerDiscoveryTimeout (CONFIG PRINTER_ADDRESS) = 5000)
  /\ (forall body ms cfg',
         assignConfig body cfg = Some cfg' ->
         lookup defaultPrinterHostKey body = None ->
         lookup printerDiscoveryTimeoutKey body = Some (JNum ms) ->
         connectStalls (timerDelay ms) (events script) ->
         settled (dispatch cfg')
         = Some (timerDelay ms, Rejected PrinterConnectionTimeout)).
Proof.
  intros Hstream dispatch printerConfig script delay Hthrows.
  assert (Hsel : forall configuration,
             dispatch configuration
             = printViaRawTCP configuration net data
                 (resolvePrinter configuration printer) format).
  { intros configuration. unfold dispatch.
    now apply stream_selected. }
  assert (Hsame : forall body cfg',
             assignConfig body cfg = Some cfg' ->
             lookup defaultPrinterHostKey body = None ->
             resolvePrinter cfg' printer = printerConfig).
  { intros body cfg' Hassign Hkept.
    apply resolvePrinter_same_default.
    now apply (proj1 (assignConfig_fields body cfg Hassign)). }
  rewrite (Hsel cfg). fold printerConfig.
  split; [|split; [|split; [|split]]].
  - intros [[now [m [rest [Hev Hnow]]]] | Hstall].
    + exists now, (TcpPrintFailed m). split; [|split].
      * exact (@connect_error_rejects cfg net data format printerConfig
                 now m rest Hthrows Hev Hnow).
      * apply Z.lt_le_incl. exact Hnow.
      * reflexivity.
    + exists delay, PrinterConnectionTimeout. split; [|split].
      * now rewrite (@connect_stall_times_out cfg net data format
                       printerConfig Hthrows Hstall).
      * apply Z.le_refl.
      * reflexivity.
  - intros now rest Hev Hnow. split; [|split].
    + destruct (@connect_clears_timer cfg net data format printerConfig
                  now rest Hthrows Hev Hnow) as [result [H1 [H2 _]]].
      exists result. split; assumption.
    + rewrite (@connected_run cfg net data format printerConfig now rest
                 Hthrows Hev Hnow).
      apply (@disarmed_run_invariant SocketEvent (rawTcpTimer cfg)
               (rawTcpHandler (encode data format) printerConfig) delay
               (fun st => ~ In TcpDestroy (ops (promise st)))).
      * intros t ev st. apply handler_disarms.
      * intros t ev st. apply handler_never_destroys.
      * apply handler_disarms.
      * apply handler_never_destroys. cbn. intros [H | []]. discriminate.
    + intros body cfg' Hassign Hkept Hnow'.
      rewrite (Hsel cfg'), (Hsame body cfg' Hassign Hkept).
      rewrite (@connected_run cfg' net data format printerConfig now rest
                 Hthrows Hev Hnow').
      rewrite (@connected_run cfg net data format printerConfig now rest
                 Hthrows Hev Hnow).
      f_equal. apply disarmed_run_ignores_timer.
      * intros t ev st. apply handler_disarms.
      * apply handler_disarms.
  - apply timerDelay_in_range.
  - reflexivity.
  - intros body ms cfg' Hassign Hkept Hms Hstall.
    rewrite (Hsel cfg'), (Hsame body cfg' Hassign Hkept).
    pose proof (proj2 (assignConfig_fields body cfg Hassign) ms Hms) as Hcfg'.
    rewrite <- Hcfg' in Hstall |- *.
    now rewrite (@connect_stall_times_out cfg' net data format
                   printerConfig Hthrows Hstall).
Qed.

(** The protocol [bluetooth], as an instance. *)
Lemma unsupported_protocol_fails_before_io_witness :
  ~ In (toLowerCase sampleLower (lit "bluetooth"))
       [websocketName; rawName; tcpName; httpName]
  /\ printWithProtocol sampleLower sampleParse (CONFIG None) deadNetwork
       (lit "hello") None (lit "bluetooth") escpos
     = {| ops := [];
          settled :=
            Some (0, Rejected (UnsupportedProtocol (lit "bluetooth"))) |}.
Proof.
  assert (H : ~ In (toLowerCase sampleLower (lit "bluetooth"))
                   [websocketName; rawName; tcpName; httpName]).
  { vm_compute. intros [H | [H | [H | [H | []]]]]; discriminate. }
  split; [exact H|].
  exact (proj1 (@unsupported_protocol_fails_before_io
                  sampleLower sampleParse (CONFIG None) deadNetwork
                  (lit "hello") None (lit "bluetooth") escpos H)).
Defined.

(** The protocol [TcP], as an instance. *)
Lemma transport_names_ignore_case_witness :
  In (toLowerCase sampleLower (lit "TcP")) [rawName; tcpName]
  /\ printWithProtocol sampleLower sampleParse (CONFIG None) refusingNetwork
       (lit "hello") None (lit "TcP") escpos
     = printWithProtocol sampleLower sampleParse (CONFIG None) refusingNetwork
         (lit "hello") None rawName escpos.
Proof.
  assert (H : In (toLowerCase sampleLower (lit "TcP")) [rawName; tcpName]).
  { right; left; reflexivity. }
  split; [exact H|].
  exact (proj2 (proj2 (@transport_names_ignore_case
                         sampleLower sampleParse (CONFIG None) refusingNetwork
                         (lit "hello") None escpos)
                      (lit "TcP") H)).
Defined.

(** Three calls, as instances: a host that refuses the connection
    after 3 ms; a printer that accepts it after 5 ms; and a host that
    never answers, called after the body
    [{"printerDiscoveryTimeout": 250}] has been assigned to the
    configuration. *)
Lemma stream_connect_failure_is_reported_in_time_witness :
  In (toLowerCase sampleLower (lit "TcP")) [rawName; tcpName]
  /\ connectFails 5000
       [ (3, Errored (lit "connect ECONNREFUSED")); (3, Closed) ]
  /\ (exists t e,
         settled (printWithProtocol sampleLower sampleParse (CONFIG None)
                    refusingNetwork (lit "hello") None (lit "TcP") escpos)
         = Some (t, Rejected e)
         /\ t <= 5000
         /\ failureKind e = ConnectionFailure)
  /\ ~ In TcpDestroy
         (ops (printWithProtocol sampleLower sampleParse (CONFIG None)
                 Notions.acceptingNetwork (lit "hello") None (lit "TcP")
                 escpos))
  /\ assignConfig [(printerDiscoveryTimeoutKey, JNum 250)] (CONFIG None)
     = Some {| defaultPrinterHost := builtinPrinterHost;
               printerDiscoveryTimeout := 250 |}
  /\ settled (printWithProtocol sampleLower sampleParse
                {| defaultPrinterHost := builtinPrinterHost;
                   printerDiscoveryTimeout := 250 |}
                deadNetwork (lit "hello") None (lit "TcP") escpos)
     = Some (250, Rejected PrinterConnectionTimeout).
Proof.
  assert (H : In (toLowerCase sampleLower (lit "TcP")) [rawName; tcpName]).
  { right; left; reflexivity. }
  assert (F : connectFails 5000
                [ (3, Errored (lit "connect ECONNREFUSED")); (3, Closed) ]).
  { exists 3, (lit "connect ECONNREFUSED"), [(3, Closed)].
    split; reflexivity. }
  split; [exact H|]. split; [exact F|]. split; [|split; [|split]].
  - exact (proj1 (@stream_connect_failure_is_reported_in_time
                    sampleLower sampleParse (CONFIG None) refusingNetwork
                    (lit "hello") None (lit "TcP") escpos H eq_refl)
                 (or_introl F)).
  - exact (proj1 (proj2
             (proj1 (proj2 (@stream_connect_failure_is_reported_in_time
                              sampleLower sampleParse (CONFIG None)
                              Notions.acceptingNetwork
                              (lit "hello") None (lit "TcP") escpos H eq_refl))
                    5 [] eq_refl eq_refl))).
  - reflexivity.
  - exact (proj2 (proj2 (proj2 (proj2
             (@stream_connect_failure_is_reported_in_time
                sampleLower sampleParse (CONFIG None) deadNetwork
                (lit "hello") None (lit "TcP") escpos H eq_refl))))
             [(printerDiscoveryTimeoutKey, JNum 250)] 250
             {| defaultPrinterHost := builtinPrinterHost;
                printerDiscoveryTimeout := 250 |}
             eq_refl eq_refl eq_refl I).
Defined.

End DispatchFacts.

(* ================================================================= *)
(** ** Worked examples *)

Module Examples.

Import Escpos Discovery Dispatch Scenario.
Local Open Scope N_scope.

(** A receipt with a title, a total and a rule line. *)
Example receipt_encoding :
  convertToESCPOS
    (lit "ISTANBUL RESTAURANT" ++ LF ++ lit "TOPLAM: 10" ++ LF ++ lit "====")
  = opening
    ++ ([27; 97; 1; 27; 69; 1; 29; 33; 17]
          ++ lit "ISTANBUL RESTAURANT" ++ LF ++ [27; 69; 0; 29; 33; 0])
    ++ ([27; 69; 1; 29; 33; 16]
          ++ lit "TOPLAM: 10" ++ LF ++ [27; 69; 0; 29; 33; 0])
    ++ ([27; 97; 1] ++ lit "====" ++ LF ++ [27; 97; 0])
    ++ paperCut.
Proof. vm_compute. reflexivity. Qed.

(** A line with all three patterns is a title line. *)
Example title_beats_total_and_rule :
  List.length (matching (lit "=== ISTANBUL RESTAURANT TOPLAM: 5")) = 3%nat
  /\ emitLine (lit "=== ISTANBUL RESTAURANT TOPLAM: 5")
     = [27; 97; 1; 27; 69; 1; 29; 33; 17]
       ++ lit "=== ISTANBUL RESTAURANT TOPLAM: 5" ++ LF
       ++ [27; 69; 0; 29; 33; 0].
Proof. split; vm_compute; reflexivity. Qed.

(** A line with the total and the rule pattern is a total line. *)
Example total_beats_rule :
  List.length (matching (lit "TOPLAM: === 12")) = 2%nat
  /\ emitLine (lit "TOPLAM: === 12")
     = [27; 69; 1; 29; 33; 16] ++ lit "TOPLAM: === 12" ++ LF
       ++ [27; 69; 0; 29; 33; 0].
Proof. split; vm_compute; reflexivity. Qed.

(** The Turkish letters become code page bytes before the lines are
    cut. *)
Example turkish_letters :
  convertToESCPOS [231; 305; 287; 246; 351; 252]
  = opening ++ [135; 141; 131; 148; 159; 129] ++ LF ++ paperCut.
Proof. vm_compute. reflexivity. Qed.

Example parseInt_samples :
  parseInt (Some (lit "9100")) = Some 9100%Z
  /\ parseInt (Some (lit " -0x1F:zz")) = Some (-31)%Z
  /\ parseInt (Some (lit "port")) = None
  /\ parseInt None = None.
Proof. repeat split; vm_compute; reflexivity. Qed.

(** On a network that never answers, the stream client gives up when
    the timer fires and destroys the socket. *)
Example dead_network_times_out :
  printWithProtocol sampleLower sampleParse (CONFIG None) deadNetwork
    (lit "hello") None rawName escpos
  = {| ops := [ TcpConnect (JNum 9100) (Some (JStr (lit "192.168.2.38")));
                TcpDestroy ];
       settled := Some (5000%Z, Rejected PrinterConnectionTimeout) |}.
Proof. vm_compute. reflexivity. Qed.

End Examples.

(* ================================================================= *)
(** * Further properties of the agent *)

(** ** The encoder: substitution, lines and bytes *)

Module EncoderCoverage.

Import Escpos EscposFacts.
Local Open Scope N_scope.

(** Case analysis of a code unit against the keys of [turkishMap]. *)
Ltac by_keys u :=
  unfold encodeUnit, turkishMap; cbn [find fst snd];
  repeat match goal with
         | |- context [N.eqb u ?k] =>
             destruct (N.eqb_spec u k) as [->|?]
         end.

Lemma encodeUnit_ascii (u : N) : u < 128 -> encodeUnit u = u.
Proof. intros H. by_keys u; solve [reflexivity | exfalso; lia]. Qed.

Lemma encodeUnit_high (u : N) : 128 <= u -> 128 <= encodeUnit u.
Proof. intros H. by_keys u; solve [exact H | cbv; discriminate]. Qed.

Lemma encodeUnit_idem (u : N) : encodeUnit (encodeUnit u) = encodeUnit u.
Proof.
  set (f := encodeUnit) at 1.
  by_keys u; subst f; try reflexivity.
  by_keys u; solve [reflexivity | contradiction].
Qed.

(** X1: the twelve global replacements of the loop over [turkishMap]
    amount to one pass that looks every code unit up in the map; the
    pass keeps the length of the text and leaves nothing to replace,
    so substituting twice is substituting once. *)
Theorem substitution_is_one_idempotent_pass (text : jsstring) :
  substitute text = map encodeUnit text
  /\ List.length (substitute text) = List.length text
  /\ substitute (substitute text) = substitute text.
Proof.
  rewrite !substitute_one_pass. split; [reflexivity|].
  split; [apply length_map|].
  rewrite map_map. apply map_ext. exact encodeUnit_idem.
Qed.

Lemma encodeUnit_keeps (sep u : N) :
  sep < 128 -> N.eqb (encodeUnit u) sep = N.eqb u sep.
Proof.
  intros Hsep. destruct (N.lt_ge_cases u 128) as [H | H].
  - now rewrite encodeUnit_ascii.
  - pose proof (encodeUnit_high H) as H'.
    destruct (N.eqb_spec (encodeUnit u) sep), (N.eqb_spec u sep);
      try reflexivity; exfalso; lia.
Qed.

Lemma split_substitute (sep : N) (s : jsstring) :
  sep < 128 ->
  split sep (map encodeUnit s) = map (map encodeUnit) (split sep s).
Proof.
  intros Hsep. induction s as [|c s IH]; simpl; [reflexivity|].
  rewrite (encodeUnit_keeps c Hsep), IH.
  destruct (N.eqb c sep); [reflexivity|].
  pose proof (split_nonempty sep s) as Hne.
  destruct (split sep s); [congruence | reflexivity].
Qed.

Lemma prefixb_substitute (pat s : jsstring) :
  Forall (fun x => x < 128) pat ->
  prefixb pat (map encodeUnit s) = prefixb pat s.
Proof.
  intros Hpat. revert s. induction Hpat as [|x pat Hx _ IH]; intros s.
  - destruct s; reflexivity.
  - destruct s as [|y s]; simpl; [reflexivity|]. rewrite IH. f_equal.
    rewrite (N.eqb_sym x (encodeUnit y)), (N.eqb_sym x y).
    now apply encodeUnit_keeps.
Qed.

Lemma includes_substitute (pat s : jsstring) :
  Forall (fun x => x < 128) pat ->
  includes (map encodeUnit s) pat = includes s pat.
Proof.
  intros Hpat. induction s as [|c s IH]; simpl.
  - reflexivity.
  - rewrite <- IH. f_equal.
    exact (prefixb_substitute (c :: s) Hpat).
Qed.

Lemma patterns_ascii :
  Forall (fun r => Forall (fun x => x < 128) (pattern r)) rules.
Proof. repeat constructor. Qed.

Lemma matching_substitute (line : jsstring) :
  matching (substitute line) = matching line.
Proof.
  rewrite substitute_one_pass. unfold matching.
  apply filter_ext_in. intros r Hr.
  apply includes_substitute.
  exact (proj1 (Forall_forall _ _) patterns_ascii r Hr).
Qed.

(** X2: substitution and classification do not interfere.  Cutting
    the text into lines and classifying each line can be done on the
    text as the caller wrote it: the encoder's output is, line by
    line of the original text, the codes of the first rule that
    matches the original line around the substituted line. *)
Theorem classification_ignores_substitution (text : jsstring) :
  (forall line, matching (substitute line) = matching line)
  /\ split 10 (substitute text) = map substitute (split 10 text)
  /\ convertToESCPOS text
     = opening
       ++ flat_map (fun line =>
                      match matching line with
                      | r :: _ => before r ++ substitute line ++ LF ++ after r
                      | [] => substitute line ++ LF
                      end)
                   (split 10 text)
       ++ paperCut.
Proof.
  assert (Hsplit : split 10 (substitute text)
                   = map substitute (split 10 text)).
  { rewrite substitute_one_pass, split_substitute by reflexivity.
    apply map_ext. intros l. symmetry. apply substitute_one_pass. }
  split; [exact matching_substitute|]. split; [exact Hsplit|].
  rewrite convertToESCPOS_layout, Hsplit. do 2 f_equal.
  rewrite flat_map_concat_map, map_map, <- flat_map_concat_map.
  apply flat_map_ext. intros line.
  rewrite emitLine_firstMatchWins. unfold firstMatchWins.
  rewrite matching_substitute. reflexivity.
Qed.

(** *** Lines *)

(** A piece of a split occurs in the string. *)
Lemma split_piece_occurs (sep : N) (s line : jsstring) :
  In line (split sep s) -> exists a b, s = a ++ line ++ b.
Proof.
  revert line. induction s as [|c s IH]; simpl; intros line Hin.
  - destruct Hin as [<- | []]. exists [], []. reflexivity.
  - destruct (N.eqb_spec c sep) as [->|Hc].
    + destruct Hin as [<- | Hin].
      * exists [], (sep :: s). reflexivity.
      * destruct (IH line Hin) as [a [b ->]]. exists (sep :: a), b. reflexivity.
    + pose proof (split_first sep s) as Hfirst.
      destruct (split sep s) as [|p ps] eqn:E;
        [now destruct (split_nonempty sep s)|].
      simpl in Hfirst. destruct Hin as [<- | Hin].
      * destruct (beforeFirst_cut sep s) as [H | [more H]];
          rewrite <- Hfirst in H.
        -- exists [], []. simpl. now rewrite app_nil_r, <- H.
        -- exists [], (sep :: more). simpl. now rewrite <- H.
      * destruct (IH line (or_intror Hin)) as [a [b ->]].
        exists (c :: a), b. reflexivity.
Qed.

Lemma matching_piece (s line : jsstring) :
  matching s = [] -> In line (split 10 s) -> matching line = [].
Proof.
  intros Hs Hin. destruct (split_piece_occurs 10 s line Hin) as [a [b ->]].
  unfold matching in *.
  destruct (filter (fun r => includes line (pattern r)) rules)
    as [|r rs] eqn:E; [reflexivity|]. exfalso.
  assert (Hr : In r (filter (fun r => includes line (pattern r)) rules))
    by (rewrite E; now left).
  apply filter_In in Hr. destruct Hr as [Hr Hinc].
  apply includes_occurs in Hinc. destruct Hinc as [a' [b' ->]].
  assert (H : In r (filter (fun r0 =>
                              includes (a ++ (a' ++ pattern r ++ b') ++ b)
                                       (pattern r0)) rules)).
  { apply filter_In. split; [exact Hr|]. apply includes_occurs.
    exists (a ++ a'), (b' ++ b). now rewrite <- !app_assoc. }
  rewrite Hs in H. destruct H.
Qed.

(** Every piece followed by the separator gives the string followed
    by the separator. *)
Lemma pieces_with_separator (sep : N) (s : jsstring) :
  flat_map (fun piece => piece ++ [sep]) (split sep s) = s ++ [sep].
Proof.
  induction s as [|c s IH]; simpl; [reflexivity|].
  destruct (N.eqb_spec c sep) as [->|Hc].
  - simpl. now rewrite IH.
  - destruct (split sep s) as [|p ps] eqn:E;
      [now destruct (split_nonempty sep s)|].
    simpl in *. now rewrite IH.
Qed.

(** X3: a text in which none of the three patterns occurs is passed
    through: the output is the opening codes, the substituted text,
    one line feed and the cut code, with no formatting code in
    between. *)
Theorem plain_text_passes_through (text : jsstring) :
  matching text = [] ->
  convertToESCPOS text = opening ++ substitute text ++ LF ++ paperCut.
Proof.
  intros Hplain. rewrite convertToESCPOS_layout. f_equal.
  rewrite app_assoc. f_equal. unfold LF.
  rewrite <- (pieces_with_separator 10 (substitute text)).
  rewrite !flat_map_concat_map. f_equal.
  apply map_ext_in. intros line Hline.
  rewrite emitLine_firstMatchWins. unfold firstMatchWins.
  rewrite (matching_piece (substitute text)); [reflexivity| |exact Hline].
  now rewrite matching_substitute.
Qed.

(** The order text [2 x Kebap], which names no pattern, as an
    instance. *)
Lemma plain_text_passes_through_witness :
  matching (lit "2 x Kebap") = []
  /\ convertToESCPOS (lit "2 x Kebap")
     = opening ++ substitute (lit "2 x Kebap") ++ LF ++ paperCut.
Proof.
  split; [reflexivity|].
  apply (plain_text_passes_through (lit "2 x Kebap")). reflexivity.
Defined.

Lemma split_app_separator (sep : N) (a b : jsstring) :
  split sep (a ++ sep :: b) = split sep a ++ split sep b.
Proof.
  induction a as [|c a IH]; simpl.
  - now rewrite N.eqb_refl.
  - rewrite IH. destruct (N.eqb c sep); [reflexivity|].
    destruct (split sep a) as [|p ps] eqn:E;
      [now destruct (split_nonempty sep a)|].
    reflexivity.
Qed.

(** X4: encoding composes over a line feed.  The output for two
    texts joined by a line feed is the opening codes, the line part
    of the output for the first text, the line part of the output for
    the second, and the cut code. *)
Theorem encoding_composes_over_line_feed (a b : jsstring) :
  exists linesOfA linesOfB,
    convertToESCPOS a = opening ++ linesOfA ++ paperCut
    /\ convertToESCPOS b = opening ++ linesOfB ++ paperCut
    /\ convertToESCPOS (a ++ LF ++ b)
       = opening ++ linesOfA ++ linesOfB ++ paperCut.
Proof.
  exists (flat_map emitLine (split 10 (substitute a))),
         (flat_map emitLine (split 10 (substitute b))).
  split; [apply convertToESCPOS_layout|].
  split; [apply convertToESCPOS_layout|].
  rewrite convertToESCPOS_layout, !substitute_one_pass, map_app.
  simpl map. change (encodeUnit 10) with 10.
  rewrite split_app_separator, flat_map_app, <- app_assoc. reflexivity.
Qed.

(** *** Bytes *)

Lemma latin1_small (s : jsstring) :
  Forall (fun u => u < 256) s -> latin1 s = s.
Proof.
  induction 1 as [|u s Hu _ IH]; [reflexivity|].
  unfold latin1 in *. simpl. rewrite IH. f_equal. now apply N.mod_small.
Qed.

Lemma Forall_split (P : N -> Prop) (sep : N) (s : jsstring) :
  Forall P s -> Forall (Forall P) (split sep s).
Proof.
  induction 1 as [|c s Hc _ IH]; simpl.
  - repeat constructor.
  - destruct (N.eqb c sep); [constructor; [constructor | exact IH]|].
    destruct (split sep s) as [|p ps]; [repeat constructor; exact Hc|].
    inversion IH; subst. constructor; [constructor; assumption | assumption].
Qed.

Lemma emitLine_small (line : jsstring) :
  Forall (fun u => u < 256) line -> Forall (fun u => u < 256) (emitLine line).
Proof.
  intros H. unfold emitLine, ESC, GS, LF.
  destruct (includes line TITLE); [|destruct (includes line TOTAL);
    [|destruct (includes line RULE)]];
    repeat (apply Forall_app; split); try exact H;
    repeat constructor.
Qed.

(** X5: nothing is lost when the output is written to the socket as
    latin1, provided every character of the text is below U+0100 or
    one of the twelve letters of [turkishMap]: the bytes written are
    the code units of the encoder's output. *)
Theorem socket_bytes_are_the_encoded_text (text : jsstring) :
  Forall (fun u => encodeUnit u < 256) text ->
  latin1 (convertToESCPOS text) = convertToESCPOS text.
Proof.
  intros H. apply latin1_small. rewrite convertToESCPOS_layout.
  apply Forall_app. split; [repeat constructor|].
  apply Forall_app. split; [|repeat constructor].
  apply Forall_flat_map.
  assert (Hs : Forall (fun u => u < 256) (substitute text)).
  { rewrite substitute_one_pass. apply Forall_map. exact H. }
  apply Forall_split with (sep := 10) in Hs.
  eapply Forall_impl; [|exact Hs]. exact emitLine_small.
Qed.

(** A text with g-breve (U+011F) and dotless i (U+0131), as an
    instance. *)
Lemma socket_bytes_are_the_encoded_text_witness :
  Forall (fun u => encodeUnit u < 256) [65; 287; 305]
  /\ latin1 (convertToESCPOS [65; 287; 305]) = convertToESCPOS [65; 287; 305].
Proof.
  assert (H : Forall (fun u => encodeUnit u < 256) [65; 287; 305])
    by (repeat constructor).
  split; [exact H|].
  exact (socket_bytes_are_the_encoded_text H).
Defined.

End EncoderCoverage.

(* ================================================================= *)
(** ** Discovery: the three strategies and their merge *)

Module DiscoveryCoverage.

Import Discovery DiscoveryFacts Notions Scenario.
Local Open Scope Z_scope.

Lemma commonPorts_legal (port : Z) :
  In port commonPorts -> legalPort port = true.
Proof.
  unfold commonPorts. simpl.
  intros [<- | [<- | [<- | [<- | [<- | [<- | []]]]]]]; reflexivity.
Qed.

Lemma hostSuffixes_range (i : Z) : In i hostSuffixes <-> 1 <= i <= 254.
Proof.
  unfold hostSuffixes. rewrite in_map_iff. split.
  - intros [n [<- Hn]]. apply in_seq in Hn. lia.
  - intros H. exists (Z.to_nat i). split; [lia|]. apply in_seq. lia.
Qed.

Section Strategies.

Variable tcpAccepts : jsstring -> Z -> bool.
Variable JSON_parse : jsstring -> option Json.

Lemma testConnection_record (host : jsstring) (port : Z) (p : Printer) :
  legalPort port = true ->
  (testConnection tcpAccepts host (Some port) = Fulfilled (Some p)
   <-> tcpAccepts host port = true /\ p = tcpRecord host port).
Proof.
  intros Hlegal. unfold testConnection. rewrite Hlegal.
  destruct (tcpAccepts host port); split.
  - intros H. inversion H. split; reflexivity.
  - intros [_ ->]. reflexivity.
  - discriminate.
  - intros [H _]. discriminate.
Qed.

(** X6: the port scan has no false positives and no false negatives.
    A printer is in its result exactly when it is the record of a pair
    of a host [subnet.i], 1 <= i <= 254, and one of the six candidate
    ports on which a connect succeeded, where [subnet] is what
    precedes the third dot of the primary address. *)
Theorem port_scan_sound_and_complete
        (interfaces : list (jsstring * list Iface)) (p : Printer) :
  let subnet :=
    join [46%N] (firstn 3 (split 46 (getPrimaryIP interfaces))) in
  In p (discoverByPortScan tcpAccepts interfaces)
  <-> exists i port,
      1 <= i <= 254
      /\ In port commonPorts
      /\ tcpAccepts (subnet ++ [46%N] ++ decimal i) port = true
      /\ p = tcpRecord (subnet ++ [46%N] ++ decimal i) port.
Proof.
  intros subnet. unfold discoverByPortScan. fold subnet.
  rewrite in_flat_map. split.
  - intros [result [Hres Hp]].
    apply in_flat_map in Hres. destruct Hres as [i [Hi Hres]].
    apply in_map_iff in Hres. destruct Hres as [port [Hres Hport]].
    destruct result as [[value|]|]; [|destruct Hp|destruct Hp].
    destruct Hp as [<- | []].
    apply testConnection_record in Hres; [|now apply commonPorts_legal].
    exists i, port. rewrite <- hostSuffixes_range. tauto.
  - intros [i [port [Hi [Hport [Hacc ->]]]]].
    exists (Fulfilled (Some (tcpRecord (subnet ++ [46%N] ++ decimal i) port))).
    split; [|now left].
    apply in_flat_map. exists i. split; [now apply hostSuffixes_range|].
    apply in_map_iff. exists port. split; [|exact Hport].
    apply testConnection_record; [now apply commonPorts_legal | tauto].
Qed.

Lemma split_without_separator (sep : N) (a : jsstring) :
  ~ In sep a -> split sep a = [a].
Proof.
  induction a as [|c a IH]; simpl; intros H; [reflexivity|].
  destruct (N.eqb_spec c sep) as [->|Hc]; [exfalso; apply H; now left|].
  rewrite IH by (intros Hin; apply H; now right). reflexivity.
Qed.

Lemma subnet_of_dotted_quad (a b c d : jsstring) :
  ~ In 46%N a -> ~ In 46%N b -> ~ In 46%N c ->
  join [46%N] (firstn 3 (split 46 (a ++ [46%N] ++ b ++ [46%N] ++ c
                                     ++ [46%N] ++ d)))
  = a ++ [46%N] ++ b ++ [46%N] ++ c.
Proof.
  intros Ha Hb Hc. simpl.
  rewrite !EncoderCoverage.split_app_separator.
  rewrite !split_without_separator by assumption.
  pose proof (split_nonempty 46 d) as Hd.
  destruct (split 46 d) as [|p ps]; [congruence|]. reflexivity.
Qed.

(** X7: when the primary address is a dotted quad [a.b.c.d], every
    printer the port scan finds is on the same /24 network: its host
    is [a.b.c.i] with 1 <= i <= 254, and its port is one of the six
    candidate ports. *)
Theorem port_scan_stays_on_the_subnet
        (interfaces : list (jsstring * list Iface)) (a b c d : jsstring)
        (p : Printer) :
  getPrimaryIP interfaces
  = a ++ [46%N] ++ b ++ [46%N] ++ c ++ [46%N] ++ d ->
  ~ In 46%N a -> ~ In 46%N b -> ~ In 46%N c ->
  In p (discoverByPortScan tcpAccepts interfaces) ->
  exists i port,
    1 <= i <= 254
    /\ In port commonPorts
    /\ p = tcpRecord (a ++ [46%N] ++ b ++ [46%N] ++ c ++ [46%N] ++ decimal i)
                     port.
Proof.
  intros Hip Ha Hb Hc Hin.
  unfold discoverByPortScan in Hin. rewrite Hip in Hin.
  rewrite (@subnet_of_dotted_quad a b c d Ha Hb Hc) in Hin.
  apply in_flat_map in Hin. destruct Hin as [result [Hres Hp]].
  apply in_flat_map in Hres. destruct Hres as [i [Hi Hres]].
  apply in_map_iff in Hres. destruct Hres as [port [Hres Hport]].
  destruct result as [[value|]|]; [|destruct Hp|destruct Hp].
  destruct Hp as [<- | []].
  apply testConnection_record in Hres; [|now apply commonPorts_legal].
  destruct Hres as [_ ->]. exists i, port.
  split; [now apply hostSuffixes_range|]. split; [exact Hport|].
  now rewrite <- !app_assoc.
Qed.

(** X8: a socket error ends the broadcast strategy with an empty
    result, whatever was collected before it: the promise is resolved
    with a new empty array, not with [printers]. *)
Theorem socket_error_discards_replies (events : list UdpEvent) :
  In SocketError events -> discoverByBroadcast JSON_parse events = [].
Proof.
  intros Hin. unfold discoverByBroadcast.
  assert (G : forall printers, broadcastLoop JSON_parse events printers = []).
  { induction events as [|[msg addr|] events IH]; intros printers.
    - destruct Hin.
    - simpl. apply IH. destruct Hin as [H | H]; [discriminate | exact H].
    - reflexivity. }
  apply G.
Qed.

Lemma orElse_truthy (v : option Json) (d : Json) :
  truthy (Some d) = true -> truthy (Some (orElse v d)) = true.
Proof.
  intros Hd. destruct v as [x|]; [|exact Hd].
  unfold orElse. destruct (truthy (Some x)) eqn:E; assumption.
Qed.

Lemma onMessage_cases (printers : list Printer) (msg addr : jsstring) :
  onMessage JSON_parse printers msg addr = printers
  \/ exists p,
      onMessage JSON_parse printers msg addr = printers ++ [p]
      /\ type p = discoveredType
      /\ truthy (Some (port p)) = true
      /\ truthy (Some (name p)) = true
      /\ host p = addr.
Proof.
  unfold onMessage.
  destruct (JSON_parse msg) as [response|]; [|now left].
  destruct (getProp response typeKey) as [|[[ | | |t| | ]|]];
    try (now left).
  destruct (str_eqb t printerMarker); [|now left].
  destruct (getProp response portKey), (getProp response nameKey);
    try (now left).
  right. eexists. split; [reflexivity|]. simpl.
  repeat split; apply orElse_truthy; reflexivity.
Qed.

Lemma broadcastLoop_invariant (all : list UdpEvent) (events : list UdpEvent) :
  incl events all ->
  forall printers,
    Forall (announcedIn all) printers ->
    Forall (announcedIn all) (broadcastLoop JSON_parse events printers)
    /\ (List.length (broadcastLoop JSON_parse events printers)
        <= List.length printers + List.length events)%nat.
Proof.
  induction events as [|[msg addr|] events IH]; intros Hincl printers Hp.
  - simpl. split; [exact Hp | lia].
  - simpl broadcastLoop.
    assert (Hrest : incl events all)
      by (intros e He; apply Hincl; now right).
    destruct (onMessage_cases printers msg addr)
      as [-> | [p [-> [Ht [Hport [Hname Hhost]]]]]].
    + destruct (IH Hrest printers Hp) as [H1 H2]. split; [exact H1|].
      simpl. lia.
    + assert (Hp' : Forall (announcedIn all) (printers ++ [p])).
      { apply Forall_app. split; [exact Hp|]. constructor; [|constructor].
        repeat split; try assumption. exists msg. rewrite Hhost.
        apply Hincl. now left. }
      destruct (IH Hrest _ Hp') as [H1 H2]. split; [exact H1|].
      rewrite length_app in H2. simpl in *. lia.
  - simpl. split; [constructor | lia].
Qed.

(** X9: every printer the broadcast strategy returns was built from
    a reply: its type is ['discovered'], its host is the source
    address of one of the datagrams received, and neither its port
    nor its name is a falsy value; and there are no more printers
    than datagrams. *)
Theorem broadcast_results_come_from_replies (events : list UdpEvent) :
  Forall (announcedIn events) (discoverByBroadcast JSON_parse events)
  /\ (List.length (discoverByBroadcast JSON_parse events)
      <= List.length events)%nat.
Proof.
  destruct (@broadcastLoop_invariant events events (incl_refl _) [])
    as [H1 H2]; [constructor|].
  split; [exact H1 | exact H2].
Qed.

(** X10: only announcements add printers.  A reply that parses, but
    not as an object whose [type] is the string ['printer'], leaves
    [printers] as it is; this covers the text [null], for which
    reading [type] throws inside the [try]. *)
Theorem only_announcements_add_printers
        (printers : list Printer) (msg addr : jsstring) :
  (forall fields, JSON_parse msg = Some (JObj fields) ->
                  lookup typeKey fields <> Some (JStr printerMarker)) ->
  onMessage JSON_parse printers msg addr = printers.
Proof.
  intros Hnot. unfold onMessage.
  destruct (JSON_parse msg) as [response|] eqn:E; [|reflexivity].
  destruct (getProp response typeKey) as [|[[ | | |t| | ]|]] eqn:G;
    try reflexivity.
  destruct (str_eqb t printerMarker) eqn:Ht; [|reflexivity].
  exfalso. apply str_eqb_eq in Ht. subst t.
  destruct response; try discriminate.
  simpl in G. inversion G as [G']. exact (Hnot _ eq_refl G').
Qed.

Lemma commonLoop_exact (addresses : list jsstring) :
  Forall (fun address =>
            parseInt (nth_error (split 58 address) 1) = Some 9100)
         addresses ->
  forall printers,
    commonLoop tcpAccepts addresses printers
    = Fulfilled
        (printers
           ++ flat_map (fun address =>
                          let host := beforeFirst 58 address in
                          if tcpAccepts host 9100
                          then [tcpRecord host 9100] else [])
                       addresses).
Proof.
  induction 1 as [|address addresses Hp _ IH]; intros printers.
  - simpl. now rewrite app_nil_r.
  - cbn [commonLoop flat_map]. rewrite Hp, split_first.
    unfold testConnection. change (legalPort 9100) with true. cbv iota.
    destruct (tcpAccepts (beforeFirst 58 address) 9100).
    + rewrite IH, <- app_assoc. reflexivity.
    + rewrite IH. reflexivity.
Qed.

(** X11: the strategy over the common addresses never rejects; it
    returns, in the order of the list, the record of each of the five
    listed hosts on which a connect to port 9100 succeeded, and
    nothing else. *)
Theorem common_addresses_exact :
  discoverByCommonAddresses tcpAccepts
  = Fulfilled
      (flat_map (fun address =>
                   let host := beforeFirst 58 address in
                   if tcpAccepts host 9100 then [tcpRecord host 9100] else [])
                commonAddresses).
Proof.
  unfold discoverByCommonAddresses.
  rewrite commonLoop_exact; [reflexivity|].
  unfold commonAddresses. repeat constructor.
Qed.


End Strategies.

(** A primary address 192.168.1.7, as an instance. *)
Lemma port_scan_stays_on_the_subnet_witness :
  In scanned (discoverByPortScan accepts interfaces)
  /\ exists i port,
      1 <= i <= 254
      /\ In port commonPorts
      /\ scanned
         = tcpRecord (lit "192" ++ [46%N] ++ lit "168" ++ [46%N] ++ lit "1"
                          ++ [46%N] ++ decimal i) port.
Proof.
  assert (H : In scanned (discoverByPortScan accepts interfaces))
    by (vm_compute; now left).
  split; [exact H|].
  apply (@port_scan_stays_on_the_subnet accepts interfaces
           (lit "192") (lit "168") (lit "1") (lit "7") scanned).
  - reflexivity.
  - vm_compute. intuition discriminate.
  - vm_compute. intuition discriminate.
  - vm_compute. intuition discriminate.
  - exact H.
Defined.

(** A reply followed by a socket error, as an instance. *)
Lemma socket_error_discards_replies_witness :
  In SocketError [Message announcement printerHost; SocketError]
  /\ discoverByBroadcast sampleParse
       [Message announcement printerHost; SocketError] = [].
Proof.
  assert (H : In SocketError [Message announcement printerHost; SocketError])
    by (right; left; reflexivity).
  split; [exact H|].
  exact (socket_error_discards_replies sampleParse _ H).
Defined.

(** The reply [null], as an instance. *)
Lemma only_announcements_add_printers_witness :
  (forall fields, nullParse (lit "null") = Some (JObj fields) ->
                  lookup typeKey fields <> Some (JStr printerMarker))
  /\ onMessage nullParse [scanned] (lit "null") printerHost = [scanned].
Proof.
  assert (H : forall fields,
             nullParse (lit "null") = Some (JObj fields) ->
             lookup typeKey fields <> Some (JStr printerMarker))
    by (intros fields Hf; discriminate Hf).
  split; [exact H|].
  exact (only_announcements_add_printers nullParse [scanned]
           (lit "null") printerHost H).
Defined.

End DiscoveryCoverage.

(* ================================================================= *)
(** ** Dispatch: the stream client and the message client *)

Module DispatchCoverage.

Import Escpos Dispatch DispatchFacts Notions Scenario.
Local Open Scope Z_scope.

Lemma timerDelay_positive (ms : Z) : 1 <= timerDelay ms.
Proof.
  unfold timerDelay. destruct (ms <? 1) eqn:E; simpl; [lia|].
  destruct (2147483647 <? ms); [lia|]. apply Z.ltb_ge in E. exact E.
Qed.

(** A property of the state that the timer and the handlers keep is
    kept by the event loop. *)
Lemma drive_keeps (Event : Type) (onTimer : ClientState -> ClientState)
      (handle : Z -> Event -> ClientState -> ClientState)
      (P : ClientState -> Prop) (delay : Z) (evs : list (Z * Event)) :
  (forall st, P st -> P (onTimer st)) ->
  (forall now ev st, In (now, ev) evs -> P st -> P (handle now ev st)) ->
  forall st, P st -> P (drive onTimer handle delay evs st).
Proof.
  intros HT. induction evs as [|[now ev] evs IH]; intros HH st H.
  - simpl. destruct (timerArmed st); auto.
  - simpl. destruct (timerArmed st && (delay <=? now)); [auto|].
    apply IH.
    + intros t e st' Hin. apply HH. now right.
    + apply HH; [now left | exact H].
Qed.

Section Clients.

Variable unicodeLower : jsstring -> jsstring.
Variable JSON_parse : jsstring -> option Json.
Variable cfg : Config.
Variable net : Network.
Variable data format : jsstring.
Variable printer : list (jsstring * Json).

Local Notation delay := (timerDelay (printerDiscoveryTimeout cfg)).
Local Notation port := (orElse (lookup portKey printer) (JNum 9100)).
Local Notation host := (lookup hostKey printer).
Local Notation script := (tcp net port host).

(** After the timer is cleared and the promise settled, events other
    than a connect change nothing. *)
Lemma stream_quiet (evs : list (Z * SocketEvent)) (run : Run) :
  settled run <> None ->
  Forall (fun e => snd e <> Connected) evs ->
  drive (rawTcpTimer cfg) (rawTcpHandler (encode data format) printer)
        delay evs {| timerArmed := false; promise := run |}
  = {| timerArmed := false; promise := run |}.
Proof.
  intros Hset. induction 1 as [|[now ev] evs Hev _ IH]; [reflexivity|].
  simpl drive.
  assert (Hh : rawTcpHandler (encode data format) printer now ev
                 {| timerArmed := false; promise := run |}
               = {| timerArmed := false; promise := run |}).
  { destruct ev; simpl in *; [congruence| |reflexivity].
    unfold settle, clearTimeout. simpl.
    destruct (settled run); [reflexivity | congruence]. }
  rewrite Hh. exact IH.
Qed.

(** The run of the stream client when the socket connects in time. *)
Lemma stream_success_run
        (now : Z) (rest : list (Z * SocketEvent)) :
  throws script = None ->
  events script = (now, Connected) :: rest ->
  now < delay ->
  Forall (fun e => snd e <> Connected) rest ->
  (printViaRawTCP cfg net data printer format)
  = {| ops := [ TcpConnect port host;
                TcpWrite (latin1 (if str_eqb format escpos
                                  then convertToESCPOS data else data));
                TcpEnd ];
       settled :=
         Some (now,
               Resolved {| success := true;
                           method := lit "raw_tcp";
                           message := lit "Printed successfully to "
                                      ++ template host ++ [58%N]
                                      ++ template (lookup portKey printer);
                           timestamp := now |}) |}.
Proof.
  intros Hthrows Hev Hnow Hrest. unfold printViaRawTCP.
  rewrite Hthrows, Hev. simpl drive.
  apply Z.leb_gt in Hnow. rewrite Hnow. simpl andb. cbv iota.
  unfold settle, emit, clearTimeout, start.
  simpl. rewrite stream_quiet; [reflexivity | discriminate | exact Hrest].
Qed.

(** X13: a successful stream dispatch.  When the socket connects
    before the timer is due (and does not report a connect again),
    the client connects to [printer.port || 9100] on [printer.host],
    writes the payload once as latin1 bytes (the ESC/POS encoding of
    the data when the format is exactly ['escpos'], the data
    themselves otherwise), ends the stream and never destroys the
    socket; the call resolves at the time of the connect. *)
Theorem stream_success_writes_once_and_ends
        (now : Z) (rest : list (Z * SocketEvent)) :
  throws script = None ->
  events script = (now, Connected) :: rest ->
  now < delay ->
  Forall (fun e => snd e <> Connected) rest ->
  (printViaRawTCP cfg net data printer format)
  = {| ops := [ TcpConnect port host;
                TcpWrite (latin1 (if str_eqb format escpos
                                  then convertToESCPOS data else data));
                TcpEnd ];
       settled :=
         Some (now,
               Resolved {| success := true;
                           method := lit "raw_tcp";
                           message := lit "Printed successfully to "
                                      ++ template host ++ [58%N]
                                      ++ template (lookup portKey printer);
                           timestamp := now |}) |}.
Proof. exact (@stream_success_run now rest). Qed.

(** X14: the stream client puts nothing on the socket unless the
    socket has connected: when no connect is reported, whatever else
    happens (errors, a close, the timer, an exception of [connect]),
    no write and no end of stream is among the operations. *)
Theorem stream_never_writes_before_connect :
  Forall (fun e => snd e <> Connected) (events script) ->
  existsb writesData (ops (printViaRawTCP cfg net data printer format))
  = false.
Proof.
  intros Hev. unfold printViaRawTCP.
  set (P := fun st : ClientState =>
              existsb writesData (ops (promise st)) = false).
  assert (HT : forall st, P st -> P (rawTcpTimer cfg st)).
  { intros st H. unfold P, rawTcpTimer, settle, emit, clearTimeout in *.
    simpl. destruct (settled (promise st)); simpl;
      rewrite existsb_app, H; reflexivity. }
  assert (HH : forall now ev st,
             In (now, ev) (events script) -> P st ->
             P (rawTcpHandler (encode data format) printer now ev st)).
  { intros now ev st Hin H.
    pose proof (proj1 (Forall_forall _ _) Hev _ Hin) as Hne. simpl in Hne.
    destruct ev; [congruence| |exact H].
    unfold P, rawTcpHandler, settle, clearTimeout in *. simpl.
    destruct (settled (promise st)); exact H. }
  destruct (throws script) as [m|].
  - change (P (drive (rawTcpTimer cfg)
                     (rawTcpHandler (encode data format) printer) delay []
                     (settle 0 (Rejected (ArgumentError m)) start))).
    apply drive_keeps; [exact HT | intros ? ? ? [] | reflexivity].
  - change (P (drive (rawTcpTimer cfg)
                     (rawTcpHandler (encode data format) printer) delay
                     (events script) (emit (TcpConnect port host) start))).
    apply drive_keeps; [exact HT | exact HH | reflexivity].
Qed.

(** X15: the stream client settles by the deadline.  Unless the
    socket reports a close before the timer is due without a connect
    or an error before it, the promise is settled, one way or the
    other, no later than the timer delay. *)
Theorem stream_settles_by_the_deadline :
  ~ closesUnannounced delay (events script) ->
  exists t outcome,
    settled (printViaRawTCP cfg net data printer format) = Some (t, outcome)
    /\ t <= delay.
Proof.
  intros Hclose. unfold printViaRawTCP.
  pose proof (timerDelay_positive (printerDiscoveryTimeout cfg)) as Hpos.
  destruct (throws script) as [m|].
  - exists 0, (Rejected (ArgumentError m)). split; [reflexivity | lia].
  - destruct (events script) as [|[now ev] rest].
    + eexists; eexists. split; [reflexivity | lia].
    + simpl drive. destruct (delay <=? now) eqn:E.
      * eexists; eexists. split; [reflexivity | lia].
      * apply Z.leb_gt in E. simpl andb. cbv iota.
        destruct ev.
        -- eexists; eexists. split; [|apply Z.lt_le_incl; exact E].
           apply drive_settled;
             [intros st H; now apply rawTcpTimer_settled
             |intros t e st H; now apply rawTcpHandler_settled
             |reflexivity].
        -- eexists; eexists. split; [|apply Z.lt_le_incl; exact E].
           apply drive_settled;
             [intros st H; now apply rawTcpTimer_settled
             |intros t e st H; now apply rawTcpHandler_settled
             |reflexivity].
        -- exfalso. apply Hclose. exact E.
Qed.

Lemma stream_closed (evs : list (Z * SocketEvent)) (run : Run) :
  Forall (fun e => snd e = Closed) evs ->
  drive (rawTcpTimer cfg) (rawTcpHandler (encode data format) printer)
        delay evs {| timerArmed := false; promise := run |}
  = {| timerArmed := false; promise := run |}.
Proof.
  induction 1 as [|[now ev] evs Hev _ IH]; [reflexivity|].
  simpl in Hev. subst ev. simpl drive. exact IH.
Qed.

(** X16: the one way the stream client hangs.  The ['close'] handler
    clears the timer without settling the promise, so when the socket
    reports a close before the timer is due, with no connect or error
    before or after it, the promise stays pending for ever and the
    socket is never destroyed. *)
Theorem stream_hangs_after_unannounced_close
        (now : Z) (rest : list (Z * SocketEvent)) :
  throws script = None ->
  events script = (now, Closed) :: rest ->
  now < delay ->
  Forall (fun e => snd e = Closed) rest ->
  printViaRawTCP cfg net data printer format
  = {| ops := [TcpConnect port host]; settled := None |}.
Proof.
  intros Hthrows Hev Hnow Hrest. unfold printViaRawTCP.
  rewrite Hthrows, Hev. simpl drive.
  apply Z.leb_gt in Hnow. rewrite Hnow. simpl andb. cbv iota.
  unfold emit, clearTimeout, start. simpl.
  now rewrite stream_closed.
Qed.

End Clients.

Section Channel.

Variable JSON_parse : jsstring -> option Json.
Variable cfg : Config.
Variable net : Network.
Variable data format : jsstring.
Variable printer : list (jsstring * Json).

Local Notation delay := (timerDelay (printerDiscoveryTimeout cfg)).
Local Notation host := (lookup hostKey printer).
Local Notation wsUrl :=
  (lit "ws://" ++ template host ++ [58%N]
   ++ toStr (orElse (lookup wsPortKey printer) (JNum 8080)) ++ printPath).
Local Notation envelope :=
  (JObj [ (typeKey, JStr printName);
          (dataKey, JStr (if str_eqb format escpos
                          then convertToESCPOS data else data));
          (formatKey, JStr format) ]).
Local Notation script := (ws net wsUrl).
Local Notation handler := (webSocketHandler JSON_parse data printer format).

Lemma webSocketTimer_settled (st : ClientState) (x : Z * Settlement) :
  settled (promise st) = Some x ->
  settled (promise (webSocketTimer cfg st)) = Some x.
Proof. intros H. unfold webSocketTimer. now apply settle_settled. Qed.

Lemma webSocketHandler_settled (now : Z) (ev : ChannelEvent)
      (st : ClientState) (x : Z * Settlement) :
  settled (promise st) = Some x ->
  settled (promise (handler now ev st)) = Some x.
Proof.
  intros H. destruct ev as [|m|m]; unfold webSocketHandler.
  - exact H.
  - destruct (JSON_parse m) as [response|]; [|exact H].
    destruct (getProp response successKey), (getProp response errorKey);
      try exact H.
    destruct (truthy v); simpl; now apply settle_settled.
  - now apply settle_settled.
Qed.

Lemma channel_unreadable (evs : list (Z * ChannelEvent)) (run : Run) :
  Forall (fun e => exists m, snd e = Received m /\ JSON_parse m = None) evs ->
  drive (webSocketTimer cfg) handler delay evs
        {| timerArmed := false; promise := run |}
  = {| timerArmed := false; promise := run |}.
Proof.
  induction 1 as [|[now ev] evs [m [Hev Hm]] _ IH]; [reflexivity|].
  simpl in Hev. subst ev. simpl drive. rewrite Hm. exact IH.
Qed.

(** X17: the message client has no deadline for the reply.  Once the
    channel has opened in time the timer is cleared, so when no
    readable reply and no error follows, the envelope has been sent
    and the promise stays pending for ever. *)
Theorem channel_hangs_without_a_reply
        (now : Z) (rest : list (Z * ChannelEvent)) :
  throws script = None ->
  events script = (now, Opened) :: rest ->
  now < delay ->
  Forall (fun e => exists m, snd e = Received m /\ JSON_parse m = None) rest ->
  printViaWebSocket JSON_parse cfg net data printer format
  = {| ops := [WsOpen wsUrl; WsSend envelope]; settled := None |}.
Proof.
  intros Hthrows Hev Hnow Hrest. unfold printViaWebSocket.
  rewrite Hthrows, Hev. simpl drive.
  apply Z.leb_gt in Hnow. rewrite Hnow. simpl andb. cbv iota.
  unfold emit, clearTimeout, start, encode. simpl.
  now rewrite channel_unreadable.
Qed.

(** X18: the first reply decides a message dispatch, however late it
    comes.  After the channel has opened in time, a reply that parses
    as an object resolves the call when its [success] is truthy, and
    otherwise rejects it with the text of its [error], or with
    ['WebSocket print failed'] when that is missing or falsy. *)
Theorem channel_reply_decides
        (now later : Z) (m : jsstring) (fields : list (jsstring * Json))
        (rest : list (Z * ChannelEvent)) :
  throws script = None ->
  events script = (now, Opened) :: (later, Received m) :: rest ->
  now < delay ->
  JSON_parse m = Some (JObj fields) ->
  settled (printViaWebSocket JSON_parse cfg net data printer format)
  = Some (later,
          if truthy (lookup successKey fields) then
            Resolved {| success := true;
                        method := websocketName;
                        message := lit "WebSocket print successful to "
                                   ++ template host;
                        timestamp := later |}
          else
            Rejected (WebSocketPrintFailed
                        (toStr (orElse (lookup errorKey fields)
                                       (JStr (lit "WebSocket print failed")))))).
Proof.
  intros Hthrows Hev Hnow Hm. unfold printViaWebSocket.
  rewrite Hthrows, Hev. simpl drive.
  apply Z.leb_gt in Hnow. rewrite Hnow. simpl andb. cbv iota.
  apply drive_settled.
  - intros st H. now apply webSocketTimer_settled.
  - intros t ev st H. now apply webSocketHandler_settled.
  - unfold webSocketHandler. rewrite Hm. simpl.
    destruct (truthy (lookup successKey fields)); reflexivity.
Qed.

(** X19: a channel that does not open in time.  When nothing is
    delivered before the timer is due, the client closes the channel
    and rejects the call with the connection timeout at the timer
    delay; nothing has been sent. *)
Theorem channel_times_out_unopened :
  throws script = None ->
  (events script = []
   \/ exists now ev rest, events script = (now, ev) :: rest /\ delay <= now) ->
  (printViaWebSocket JSON_parse cfg net data printer format)
  = {| ops := [WsOpen wsUrl; WsClose];
       settled := Some (delay, Rejected WebSocketConnectionTimeout) |}.
Proof.
  intros Hthrows Hstall. unfold printViaWebSocket. rewrite Hthrows.
  destruct Hstall as [-> | [now [ev [rest [-> Hnow]]]]].
  - reflexivity.
  - simpl drive. apply Z.leb_le in Hnow. rewrite Hnow. reflexivity.
Qed.

End Channel.

(** X20: the message client and the request client do not read the
    [port] of the printer.  Two printer objects with the same [host]
    and the same [wsPort] give the same message dispatch, and two with
    the same [host] and the same [httpPort] give the same request
    dispatch: the port of an endpoint, and the port of the configured
    default address, only reach the stream client. *)
Theorem message_and_request_clients_ignore_port
        (JSON_parse : jsstring -> option Json) (cfg : Config) (net : Network)
        (data format : jsstring) (printer printer' : list (jsstring * Json)) :
  lookup hostKey printer = lookup hostKey printer' ->
  (lookup wsPortKey printer = lookup wsPortKey printer' ->
   printViaWebSocket JSON_parse cfg net data printer format
   = printViaWebSocket JSON_parse cfg net data printer' format)
  /\ (lookup httpPortKey printer = lookup httpPortKey printer' ->
      printViaHTTP cfg net data printer format
      = printViaHTTP cfg net data printer' format).
Proof.
  intros Hhost. split; intros Hport.
  - unfold printViaWebSocket, webSocketHandler. now rewrite Hhost, Hport.
  - unfold printViaHTTP. now rewrite Hhost, Hport.
Qed.

(** X21: a caller who names a host is not affected by the configured
    default address.  For a printer object with a truthy [host] the
    dispatch is the same under any two configurations with the same
    timeout. *)
Theorem named_host_bypasses_default
        (unicodeLower : jsstring -> jsstring)
        (JSON_parse : jsstring -> option Json)
        (net : Network) (timeout : Z) (defaultA defaultB : jsstring)
        (data protocol format : jsstring) (fields : list (jsstring * Json)) :
  truthy (lookup hostKey fields) = true ->
  printWithProtocol unicodeLower JSON_parse
    {| defaultPrinterHost := defaultA; printerDiscoveryTimeout := timeout |}
    net data (Some (JObj fields)) protocol format
  = printWithProtocol unicodeLower JSON_parse
      {| defaultPrinterHost := defaultB; printerDiscoveryTimeout := timeout |}
      net data (Some (JObj fields)) protocol format.
Proof.
  intros Hhost. unfold printWithProtocol, resolvePrinter.
  rewrite Hhost. reflexivity.
Qed.

(** *** Instances *)

(** The default printer on a network whose printer accepts the
    connection after 5 ms, as an instance. *)
Lemma stream_success_writes_once_and_ends_witness :
  5 < timerDelay (printerDiscoveryTimeout (CONFIG None))
  /\ ops (printViaRawTCP (CONFIG None) acceptingNetwork (lit "hello")
            (defaultPrinter (CONFIG None)) escpos)
     = [ TcpConnect (JNum 9100) (Some (JStr (lit "192.168.2.38")));
         TcpWrite (latin1 (convertToESCPOS (lit "hello")));
         TcpEnd ].
Proof.
  split; [reflexivity|].
  exact (f_equal ops
           (@stream_success_writes_once_and_ends
              (CONFIG None) acceptingNetwork (lit "hello") escpos
              (defaultPrinter (CONFIG None)) 5 []
              eq_refl eq_refl eq_refl (Forall_nil _))).
Defined.

(** A host that refuses the connection, as an instance. *)
Lemma stream_never_writes_before_connect_witness :
  Forall (fun e : Z * SocketEvent => snd e <> Connected)
         [ (3, Errored (lit "connect ECONNREFUSED")); (3, Closed) ]
  /\ existsb writesData
       (ops (printViaRawTCP (CONFIG None) refusingNetwork (lit "hello")
               (defaultPrinter (CONFIG None)) escpos))
     = false.
Proof.
  assert (H : Forall (fun e : Z * SocketEvent => snd e <> Connected)
                     [ (3, Errored (lit "connect ECONNREFUSED"));
                       (3, Closed) ])
    by (repeat constructor; discriminate).
  split; [exact H|].
  exact (@stream_never_writes_before_connect
           (CONFIG None) refusingNetwork (lit "hello") escpos
           (defaultPrinter (CONFIG None)) H).
Defined.

(** A host that refuses the connection, as an instance. *)
Lemma stream_settles_by_the_deadline_witness :
  ~ closesUnannounced 5000
      [ (3, Errored (lit "connect ECONNREFUSED")); (3, Closed) ]
  /\ exists t outcome,
      settled (printViaRawTCP (CONFIG None) refusingNetwork (lit "hello")
                 (defaultPrinter (CONFIG None)) escpos)
      = Some (t, outcome)
      /\ t <= 5000.
Proof.
  assert (H : ~ closesUnannounced 5000
                  [ (3, Errored (lit "connect ECONNREFUSED")); (3, Closed) ])
    by (intros []).
  split; [exact H|].
  exact (@stream_settles_by_the_deadline
           (CONFIG None) refusingNetwork (lit "hello") escpos
           (defaultPrinter (CONFIG None)) H).
Defined.

(** A socket that only reports a close, as an instance. *)
Lemma stream_hangs_after_unannounced_close_witness :
  closesUnannounced 5000 [ (2, Closed) ]
  /\ printViaRawTCP (CONFIG None) closingNetwork (lit "hello")
       (defaultPrinter (CONFIG None)) escpos
     = {| ops := [ TcpConnect (JNum 9100)
                              (Some (JStr (lit "192.168.2.38"))) ];
          settled := None |}.
Proof.
  split; [reflexivity|].
  exact (@stream_hangs_after_unannounced_close
           (CONFIG None) closingNetwork (lit "hello") escpos
           (defaultPrinter (CONFIG None)) 2 []
           eq_refl eq_refl eq_refl (Forall_nil _)).
Defined.

(** A channel that opens and then stays silent, as an instance. *)
Lemma channel_hangs_without_a_reply_witness :
  5 < timerDelay (printerDiscoveryTimeout (CONFIG None))
  /\ settled (printViaWebSocket sampleParse (CONFIG None) acceptingNetwork
                (lit "hello") (defaultPrinter (CONFIG None)) escpos)
     = None.
Proof.
  split; [reflexivity|].
  exact (f_equal settled
           (@channel_hangs_without_a_reply
              sampleParse (CONFIG None) acceptingNetwork (lit "hello") escpos
              (defaultPrinter (CONFIG None)) 5 []
              eq_refl eq_refl eq_refl (Forall_nil _))).
Defined.

(** A reply without [success] that comes after 9 s, as an instance. *)
Lemma channel_reply_decides_witness :
  sampleParse announcement
  = Some (JObj [(typeKey, JStr Discovery.printerMarker)])
  /\ settled (printViaWebSocket sampleParse (CONFIG None) lateReplyNetwork
                (lit "hello") (defaultPrinter (CONFIG None)) escpos)
     = Some (9000,
             Rejected (WebSocketPrintFailed (lit "WebSocket print failed"))).
Proof.
  split; [reflexivity|].
  exact (@channel_reply_decides
           sampleParse (CONFIG None) lateReplyNetwork (lit "hello") escpos
           (defaultPrinter (CONFIG None)) 5 9000 announcement
           [(typeKey, JStr Discovery.printerMarker)] []
           eq_refl eq_refl eq_refl eq_refl).
Defined.

(** A channel on which nothing happens, as an instance. *)
Lemma channel_times_out_unopened_witness :
  settled (printViaWebSocket sampleParse (CONFIG None) deadNetwork
             (lit "hello") (defaultPrinter (CONFIG None)) escpos)
  = Some (5000, Rejected WebSocketConnectionTimeout)
  /\ ops (printViaWebSocket sampleParse (CONFIG None) deadNetwork
            (lit "hello") (defaultPrinter (CONFIG None)) escpos)
     = [ WsOpen (lit "ws://192.168.2.38:8080/print"); WsClose ].
Proof.
  pose proof (@channel_times_out_unopened
                sampleParse (CONFIG None) deadNetwork (lit "hello") escpos
                (defaultPrinter (CONFIG None)) eq_refl (or_introl eq_refl))
    as H.
  split; [exact (f_equal settled H) | exact (f_equal ops H)].
Defined.

(** The default printer with and without a port, as an instance. *)
Lemma message_and_request_clients_ignore_port_witness :
  printViaWebSocket sampleParse (CONFIG None) acceptingNetwork (lit "hello")
    [ (hostKey, JStr printerHost); (portKey, JNum 9101) ] escpos
  = printViaWebSocket sampleParse (CONFIG None) acceptingNetwork (lit "hello")
      [ (hostKey, JStr printerHost) ] escpos.
Proof.
  exact (proj1 (@message_and_request_clients_ignore_port
                  sampleParse (CONFIG None) acceptingNetwork (lit "hello")
                  escpos
                  [ (hostKey, JStr printerHost); (portKey, JNum 9101) ]
                  [ (hostKey, JStr printerHost) ] eq_refl)
               eq_refl).
Defined.

(** A named printer under two default addresses, as an instance. *)
Lemma named_host_bypasses_default_witness :
  truthy (lookup hostKey [ (hostKey, JStr printerHost) ]) = true
  /\ printWithProtocol sampleLower sampleParse
       {| defaultPrinterHost := lit "10.0.0.9:9100";
          printerDiscoveryTimeout := 5000 |}
       acceptingNetwork (lit "hello")
       (Some (JObj [ (hostKey, JStr printerHost) ])) rawName escpos
     = printWithProtocol sampleLower sampleParse
         {| defaultPrinterHost := lit "localhost";
            printerDiscoveryTimeout := 5000 |}
         acceptingNetwork (lit "hello")
         (Some (JObj [ (hostKey, JStr printerHost) ])) rawName escpos.
Proof.
  split; [reflexivity|].
  exact (@named_host_bypasses_default
           sampleLower sampleParse acceptingNetwork 5000
           (lit "10.0.0.9:9100") (lit "localhost")
           (lit "hello") rawName escpos
           [ (hostKey, JStr printerHost) ] eq_refl).
Defined.

End DispatchCoverage.

(* ================================================================= *)
(** ** The restart handler *)

Module SupervisorFacts.

Import Supervisor.
Local Open Scope Z_scope.

Lemma afterFaults_snoc (faults : list Z) (retryDelay : Z) :
  afterFaults (faults ++ [retryDelay])
  = handleRestart retryDelay (afterFaults faults).
Proof. unfold afterFaults. now rewrite fold_left_app. Qed.

(** X22: restarts are bounded for the life of the process.  After
    any series of faults the restart counter is the number of faults,
    capped at 100; the restarts scheduled are those of the first 100
    faults, each with the retry delay in force at its fault; and the
    process has exited exactly when there were more than 100 faults.
    The counter is never reset. *)
Theorem restarts_are_bounded (faults : list Z) :
  restartCount (afterFaults faults)
  = Z.min (Z.of_nat (List.length faults)) MAX_RESTART_ATTEMPTS
  /\ scheduled (afterFaults faults) = firstn 100 faults
  /\ exited (afterFaults faults)
     = (MAX_RESTART_ATTEMPTS <? Z.of_nat (List.length faults)).
Proof.
  unfold MAX_RESTART_ATTEMPTS.
  induction faults as [|d faults [Hc [Hs He]]] using rev_ind.
  - repeat split.
  - rewrite afterFaults_snoc, length_app, firstn_app. simpl List.length.
    unfold handleRestart. rewrite He, Hc, Hs. unfold MAX_RESTART_ATTEMPTS.
    destruct (100 <? Z.of_nat (List.length faults)) eqn:E1.
    + apply Z.ltb_lt in E1. rewrite Hc, Hs, He.
      replace (100 - List.length faults)%nat with 0%nat by lia.
      rewrite firstn_O, app_nil_r.
      repeat split; [lia | symmetry; apply Z.ltb_lt; lia].
    + apply Z.ltb_ge in E1.
      destruct (100 <=? Z.min (Z.of_nat (List.length faults)) 100) eqn:E2;
        cbn [restartCount scheduled exited].
      * apply Z.leb_le in E2.
        replace (100 - List.length faults)%nat with 0%nat by lia.
        rewrite firstn_O, app_nil_r.
        repeat split; [lia | symmetry; apply Z.ltb_lt; lia].
      * apply Z.leb_gt in E2.
        replace (100 - List.length faults)%nat
          with (S (99 - List.length faults))%nat by lia.
        rewrite firstn_cons, firstn_nil.
        repeat split; [lia | symmetry; apply Z.ltb_ge; lia].
Qed.

End SupervisorFacts.

(* ================================================================= *)
(** ** The route [POST /api/print] *)

Module FrontDoorFacts.

Import Escpos Dispatch DispatchFacts DispatchCoverage FrontDoor Notions
       Scenario.
Local Open Scope Z_scope.

Section Routes.

Variable unicodeLower : jsstring -> jsstring.
Variable JSON_parse : jsstring -> option Json.
Variable cfg : Config.
Variable net : Network.

Local Notation route := (postPrint unicodeLower JSON_parse cfg net).
Local Notation lower := (toLowerCase unicodeLower).

Lemma unsupported_run (data : jsstring) (printer : option Json)
      (protocol format : jsstring) :
  ~ In (lower protocol) [websocketName; rawName; tcpName; httpName] ->
  printWithProtocol unicodeLower JSON_parse cfg net data printer
                    protocol format
  = {| ops := [];
       settled := Some (0, Rejected (UnsupportedProtocol protocol)) |}.
Proof.
  intros Hnot. unfold printWithProtocol.
  assert (H : forall name,
             In name [websocketName; rawName; tcpName; httpName] ->
             str_eqb (lower protocol) name = false).
  { intros name Hin. apply str_eqb_neq. intros Heq. apply Hnot.
    now rewrite Heq. }
  rewrite !H by (simpl; auto). reflexivity.
Qed.

(** X23: what the route refuses, it refuses before any network
    operation.  A request without data (or with empty data) is
    answered at once with status 400 and ['Print data is required'],
    whatever its protocol; a request with data and a protocol that is
    not supported is answered at once with status 500 and
    ['Unsupported protocol: ...']. *)
Theorem print_route_refuses_before_io (req : PrintRequest) :
  (data req = None \/ data req = Some [] ->
   route req
   = {| network := [];
        response := Some (0, {| status := 400;
                                body := Failure printDataRequired |}) |})
  /\ (forall c rest p,
         data req = Some (c :: rest) ->
         protocol req = Some p ->
         ~ In (lower p) [websocketName; rawName; tcpName; httpName] ->
         route req
         = {| network := [];
              response :=
                Some (0, {| status := 500;
                            body := Failure (lit "Unsupported protocol: "
                                             ++ p) |}) |}).
Proof.
  split.
  - intros [H | H]; unfold postPrint; rewrite H; reflexivity.
  - intros c rest p Hdata Hprotocol Hnot. unfold postPrint.
    rewrite Hdata, Hprotocol, (@unsupported_run _ _ _ _ Hnot). reflexivity.
Qed.

(** X24: a print request that names neither protocol nor format is
    sent over the stream client as ESC/POS.  When the printer accepts
    the connection in time, the bytes written are the latin1 bytes of
    the encoding of the data, followed by the end of the stream, and
    the response has status 200 and carries the result of the
    dispatch. *)
Theorem default_print_request_sends_escpos
        (c : N) (text : jsstring) (printer : option Json)
        (now : Z) (rest : list (Z * SocketEvent)) :
  let printerConfig := resolvePrinter cfg printer in
  let port := orElse (lookup portKey printerConfig) (JNum 9100) in
  let host := lookup hostKey printerConfig in
  throws (tcp net port host) = None ->
  events (tcp net port host) = (now, Connected) :: rest ->
  now < timerDelay (printerDiscoveryTimeout cfg) ->
  Forall (fun e => snd e <> Connected) rest ->
  let handled :=
    route {| data := Some (c :: text); printer := printer;
             protocol := None; format := None |} in
  network handled
  = [ TcpConnect port host;
      TcpWrite (latin1 (convertToESCPOS (c :: text)));
      TcpEnd ]
  /\ exists result,
      response handled
      = Some (now, {| status := 200; body := PrintDone result |})
      /\ success result = true
      /\ timestamp result = now.
Proof.
  intros printerConfig port host Hthrows Hev Hnow Hrest handled.
  unfold handled, postPrint. cbn [data protocol format FrontDoor.printer].
  rewrite stream_selected by (left; reflexivity).
  fold printerConfig.
  rewrite (@stream_success_run cfg net (c :: text) escpos printerConfig
             now rest Hthrows Hev Hnow Hrest).
  cbn [ops settled]. split; [reflexivity|].
  eexists. repeat split.
Qed.

End Routes.

(** A request without data and with a protocol that does not exist,
    and a request with data and that protocol, as instances. *)
Lemma print_route_refuses_before_io_witness :
  postPrint sampleLower sampleParse (CONFIG None) acceptingNetwork
    {| data := None; printer := None;
       protocol := Some (lit "bluetooth"); format := None |}
  = {| network := [];
       response := Some (0, {| status := 400;
                               body := Failure printDataRequired |}) |}
  /\ postPrint sampleLower sampleParse (CONFIG None) acceptingNetwork
       {| data := Some (lit "hello"); printer := None;
          protocol := Some (lit "bluetooth"); format := None |}
     = {| network := [];
          response :=
            Some (0, {| status := 500;
                        body := Failure (lit "Unsupported protocol: "
                                         ++ lit "bluetooth") |}) |}.
Proof.
  split.
  - exact (proj1 (print_route_refuses_before_io sampleLower sampleParse
                    (CONFIG None) acceptingNetwork
                    {| data := None; printer := None;
                       protocol := Some (lit "bluetooth"); format := None |})
                 (or_introl eq_refl)).
  - refine (proj2 (print_route_refuses_before_io sampleLower sampleParse
                     (CONFIG None) acceptingNetwork
                     {| data := Some (lit "hello"); printer := None;
                        protocol := Some (lit "bluetooth");
                        format := None |})
                  104%N (lit "ello") (lit "bluetooth") eq_refl eq_refl _).
    vm_compute. intros [H | [H | [H | [H | []]]]]; discriminate.
Defined.

(** The request [{data: "hello"}] on a network whose printer accepts
    the connection, as an instance. *)
Lemma default_print_request_sends_escpos_witness :
  5 < timerDelay (printerDiscoveryTimeout (CONFIG None))
  /\ network (postPrint sampleLower sampleParse (CONFIG None)
                acceptingNetwork
                {| data := Some (lit "hello"); printer := None;
                   protocol := None; format := None |})
     = [ TcpConnect (JNum 9100) (Some (JStr (lit "192.168.2.38")));
         TcpWrite (latin1 (convertToESCPOS (lit "hello")));
         TcpEnd ].
Proof.
  split; [reflexivity|].
  exact (proj1 (@default_print_request_sends_escpos
                  sampleLower sampleParse (CONFIG None) acceptingNetwork
                  104%N (lit "ello") None 5 []
                  eq_refl eq_refl eq_refl (Forall_nil _))).
Defined.

End FrontDoorFacts.

(* ================================================================= *)
(** ** The resolved printer, and the size of a scan *)

Module ResolutionCoverage.

Import Discovery Dispatch DiscoveryCoverage Notions.
Local Open Scope Z_scope.

(** X25: the printer a dispatch resolves always has a host.  Whether
    the caller names a printer or not, and whatever the configured
    default address is (empty, or starting with a colon), the object
    handed to the transport client has a truthy [host]; the fallback
    object also has a port that is a number other than 0. *)
Theorem resolved_printer_has_host (cfg : Config) (printer : option Json) :
  (exists h, lookup hostKey (resolvePrinter cfg printer) = Some h
             /\ truthy (Some h) = true)
  /\ exists z, lookup portKey (defaultPrinter cfg) = Some (JNum z) /\ z <> 0.
Proof.
  assert (Hdefault : exists h, lookup hostKey (defaultPrinter cfg) = Some h
                               /\ truthy (Some h) = true).
  { unfold defaultPrinter. eexists. split; [reflexivity|].
    destruct (hd [] (split 58 (defaultPrinterHost cfg))); reflexivity. }
  split.
  - destruct printer as [[ | | | | |fields]|]; try exact Hdefault.
    simpl. destruct (lookup hostKey fields) as [h|] eqn:E.
    + destruct (truthy (Some h)) eqn:T; [|exact Hdefault].
      exists h. split; assumption.
    + exact Hdefault.
  - unfold defaultPrinter. eexists. split; [reflexivity|].
    unfold portOrDefault.
    destruct (parseInt (nth_error (split 58 (defaultPrinterHost cfg)) 1))
      as [z|]; [|discriminate].
    destruct (z =? 0) eqn:E; [discriminate|]. now apply Z.eqb_neq.
Qed.

Section Scan.

Variable tcpAccepts : jsstring -> Z -> bool.

Lemma scan_of_host (host : jsstring) (ports : list Z) :
  Forall (fun port => legalPort port = true) ports ->
  flat_map (fun result : Settled (option Printer) =>
              match result with
              | Fulfilled (Some value) => [value]
              | _ => []
              end)
           (map (fun port => testConnection tcpAccepts host (Some port)) ports)
  = map (tcpRecord host) (filter (tcpAccepts host) ports).
Proof.
  induction 1 as [|port ports Hlegal _ IH]; [reflexivity|].
  cbn [map flat_map filter]. rewrite IH. unfold testConnection.
  rewrite Hlegal. destruct (tcpAccepts host port); reflexivity.
Qed.

(** X26: the port scan returns one record for each pair of host and
    candidate port on which a connect succeeded, host by host and, for
    a host, in the order of the candidate ports; so when exactly N of
    the 254 x 6 pairs accept, the scan returns exactly N printers. *)
Theorem port_scan_counts_accepting_pairs
        (interfaces : list (jsstring * list Iface)) :
  let subnet :=
    join [46%N] (firstn 3 (split 46 (getPrimaryIP interfaces))) in
  let hostOf i := subnet ++ [46%N] ++ decimal i in
  discoverByPortScan tcpAccepts interfaces
  = flat_map (fun i => map (tcpRecord (hostOf i))
                           (filter (tcpAccepts (hostOf i)) commonPorts))
             hostSuffixes
  /\ List.length (discoverByPortScan tcpAccepts interfaces)
     = List.length
         (filter (fun pair => tcpAccepts (hostOf (fst pair)) (snd pair))
                 (list_prod hostSuffixes commonPorts)).
Proof.
  intros subnet hostOf.
  assert (Hlegal : Forall (fun port => legalPort port = true) commonPorts)
    by (apply Forall_forall; exact commonPorts_legal).
  assert (H : discoverByPortScan tcpAccepts interfaces
              = flat_map (fun i => map (tcpRecord (hostOf i))
                                       (filter (tcpAccepts (hostOf i))
                                               commonPorts))
                         hostSuffixes).
  { unfold discoverByPortScan. fold subnet.
    induction hostSuffixes as [|i suffixes IH]; [reflexivity|].
    cbn [flat_map]. rewrite flat_map_app, IH. f_equal.
    exact (scan_of_host (hostOf i) Hlegal). }
  split; [exact H|]. rewrite H. clear H.
  induction hostSuffixes as [|i suffixes IH]; [reflexivity|].
  cbn [flat_map list_prod]. rewrite filter_app, !length_app, IH. f_equal.
  rewrite length_map. clear IH Hlegal.
  induction commonPorts as [|port ports IHp]; [reflexivity|].
  cbn [filter map fst snd].
  destruct (tcpAccepts (hostOf i) port); cbn [List.length]; now rewrite IHp.
Qed.

End Scan.

End ResolutionCoverage.
